(** * micromdm-webhook: the event handlers of [micromdm-webhook.go]

    A shallow embedding of the webhook server: the device registry is a
    finite map, every handler is a computation in a small state monad whose
    state holds the [Server], the [http.ResponseWriter] of the request being
    served, the log and the outbound requests handed to [client.Do].  A
    computation ends by returning, by [os.Exit] (through [log.Fatal]) or by
    a run-time panic. *)

From Stdlib Require Import String Ascii List Bool Arith Lia.
From stdpp Require Import gmap strings list fin_maps.

Open Scope string_scope.
Open Scope list_scope.

(** ** Data model *)

(** [type Device struct { UDID string; Enrolled bool }] *)
Module Device.
Record t := mk { UDID : string; Enrolled : bool }.
(** the zero value a map index yields for an absent key *)
Definition zero : t := mk EmptyString false.
Definition set_UDID (v : string) (d : t) : t := mk v (Enrolled d).
Definition set_Enrolled (v : bool) (d : t) : t := mk (UDID d) v.
End Device.

(** [type Server struct { MDMServerURL, MDMAPIKey string; Devices map[string]Device }].
    [main] builds the only [Server] with [make(map[string]Device)], so the
    map is never nil. *)
Module Server.
Record t := mk {
  MDMServerURL : string;
  MDMAPIKey : string;
  Devices : gmap string Device.t
}.
Definition set_Devices (m : gmap string Device.t) (s : t) : t :=
  mk (MDMServerURL s) (MDMAPIKey s) m.
End Server.

(** [type Command struct { UDID string `json:"udid"`; RequestType string `json:"request_type"` }] *)
Module Command.
Record t := mk { UDID : string; RequestType : string }.
End Command.

(** The fields of [webhook.CheckinEvent] the handlers read. *)
Module CheckinEvent.
Record t := mk { UDID : string }.
End CheckinEvent.

(** The fields of [webhook.AcknowledgeEvent] the handlers read; [RawPayload]
    is a [[]byte], here the string of the same bytes. *)
Module AcknowledgeEvent.
Record t := mk { UDID : string; RawPayload : string }.
End AcknowledgeEvent.

(** [webhook.Event]: the two payloads are pointers, [None] is [nil]. *)
Module Event.
Record t := mk {
  Topic : string;
  AcknowledgeEvent : option AcknowledgeEvent.t;
  CheckinEvent : option CheckinEvent.t
}.
End Event.

(** The outcome of [json.NewDecoder(r.Body).Decode(&event)]. *)
Inductive Decoded :=
| DecodeError (err : string)
| DecodeOk (event : Event.t).

(** A JSON object whose members are strings, which is all [Command] needs:
    the member names with their values, in order. *)
Definition JSON : Type := list (string * string).

(** An outbound [*http.Request]. *)
Module Request.
Record t := mk {
  Method : string;
  URL : string;
  BasicAuth : option (string * string);
  Body : JSON
}.
Definition SetBasicAuth (username password : string) (r : t) : t :=
  mk (Method r) (URL r) (Some (username, password)) (Body r).
End Request.

(** What [client.Do] gives back: a response, whatever its status code, or
    an error when no HTTP response could be obtained. *)
Inductive DoResult :=
| DoResponse (StatusCode : nat)
| DoError (err : string).

(** The [http.ResponseWriter] of one request: the status written, if any,
    and the body so far. *)
Module ResponseWriter.
Record t := mk { status : option nat; body : string }.
Definition fresh : t := mk None EmptyString.
(** the status the client receives: 200 unless a header was written *)
Definition StatusCode (w : t) : nat := default 200 (status w).
(** [http.Error(w, msg, code)]: the first header written wins, the
    message is printed with a newline *)
Definition Error (msg : string) (code : nat) (w : t) : t :=
  mk (Some (default code (status w))) (body w +:+ msg +:+ String "010" EmptyString).
End ResponseWriter.

Definition StatusBadRequest : nat := 400.

(** Log lines, one constructor per logging call of the source, with the
    format and the arguments as passed. *)
Inductive LogArg :=
| ArgEvent (e : Event.t)
| ArgString (s : string)
| ArgError (err : string).

Inductive LogEntry :=
| logrus_Infof (format : string) (args : list LogArg)
| logrus_Warnf (format : string) (args : list LogArg)
| logrus_Errorf (format : string) (args : list LogArg)
| logrus_Error (msg : string)
| log_Println (args : list LogArg)
| log_Fatal (err : string).

(** ** The monad of handlers *)

Record State := mkState {
  srv : Server.t;
  writer : ResponseWriter.t;
  logs : list LogEntry;
  posts : list Request.t
}.

Inductive Outcome (A : Type) :=
| Returned (a : A)
| Exited (code : nat)
| Panicked (msg : string).
Arguments Returned {A} a.
Arguments Exited {A} code.
Arguments Panicked {A} msg.

Definition M (A : Type) : Type := State -> Outcome A * State.

Definition ret {A} (a : A) : M A := fun st => (Returned a, st).

Definition bind {A B} (m : M A) (k : A -> M B) : M B :=
  fun st =>
    match m st with
    | (Returned a, st') => k a st'
    | (Exited c, st') => (Exited c, st')
    | (Panicked msg, st') => (Panicked msg, st')
    end.

Declare Scope go_scope.
Delimit Scope go_scope with go.
Notation "'var' x ':=' c 'in' k" := (bind c (fun x => k))
  (at level 10, x name, c at level 100, k at level 200) : go_scope.
Notation "c ';;;' k" := (bind c (fun _ => k))
  (at level 100, k at level 200, right associativity) : go_scope.

Definition getServer : M Server.t := fun st => (Returned (srv st), st).

Definition setDevices (m : gmap string Device.t) : M unit :=
  fun st => (Returned tt,
             mkState (Server.set_Devices m (srv st)) (writer st) (logs st) (posts st)).

Definition log (e : LogEntry) : M unit :=
  fun st => (Returned tt, mkState (srv st) (writer st) (logs st ++ [e]) (posts st)).

Definition http_Error (msg : string) (code : nat) : M unit :=
  fun st => (Returned tt,
             mkState (srv st) (ResponseWriter.Error msg code (writer st)) (logs st) (posts st)).

Definition os_Exit {A} (code : nat) : M A := fun st => (Exited code, st).

Definition panic {A} (msg : string) : M A := fun st => (Panicked msg, st).

(** ** Library functions *)

(** [strings.HasPrefix] *)
Fixpoint HasPrefix (s prefix : string) {struct prefix} : bool :=
  match prefix with
  | EmptyString => true
  | String c p =>
      match s with
      | EmptyString => false
      | String c' s' => Ascii.eqb c' c && HasPrefix s' p
      end
  end.

(** [strings.Contains]: [substr] occurs at some position of [s]. *)
Fixpoint Contains (s substr : string) : bool :=
  HasPrefix s substr ||
  match s with
  | EmptyString => false
  | String _ s' => Contains s' substr
  end.

(** The JSON object [json.NewEncoder(b).Encode(c)] writes for a [Command]:
    the exported fields in declaration order under their tags. *)
Definition json_Encode_Command (c : Command.t) : JSON :=
  [("udid", Command.UDID c); ("request_type", Command.RequestType c)].

(** [m[k]] and [v, ok := m[k]] on a [map[string]Device] *)
Definition map_index (m : gmap string Device.t) (k : string) : Device.t :=
  default Device.zero (m !! k).

Definition map_index_ok (m : gmap string Device.t) (k : string) : Device.t * bool :=
  match m !! k with
  | Some d => (d, true)
  | None => (Device.zero, false)
  end.

(** ** The world outside the file *)

(** What the handlers take from elsewhere: the topic constants of package
    [mdm] ([mdm.AuthenticateTopic], ...), [net/url]'s verdict on a raw URL
    ([http.NewRequest] returns a nil request and an error when the URL does
    not parse) and the network: [client_Do n r] is the answer to request
    [r] when [n] requests have been sent before it. *)
Record Env := mkEnv {
  AuthenticateTopic : string;
  TokenUpdateTopic : string;
  ConnectTopic : string;
  CheckoutTopic : string;
  url_Parse : string -> bool;
  client_Do : nat -> Request.t -> DoResult
}.

(** Go rejects a [switch] with two equal constant cases. *)
Definition topics_distinct (E : Env) : Prop :=
  NoDup [AuthenticateTopic E; TokenUpdateTopic E; ConnectTopic E; CheckoutTopic E].

(** ** The handlers *)

Section Handlers.

Variable E : Env.

Local Open Scope go_scope.

Definition http_NewRequest (method url : string) (body : JSON) : option Request.t :=
  if url_Parse E url then Some (Request.mk method url None body) else None.

(** [client.Do(req)]: the request goes out, the network answers *)
Definition Do (req : Request.t) : M DoResult :=
  fun st => (Returned (client_Do E (length (posts st)) req),
             mkState (srv st) (writer st) (logs st) (posts st ++ [req])).

(** [log.Fatal(err)] prints and calls [os.Exit(1)] *)
Definition Fatal {A} (err : string) : M A :=
  log (log_Fatal err) ;;; os_Exit 1.

Definition sendCommandToDevice (d : Device.t) (requestType : string) : M unit :=
  let c := Command.mk (Device.UDID d) requestType in
  let b := json_Encode_Command c in
  var s := getServer in
  match http_NewRequest "POST" (Server.MDMServerURL s +:+ "/v1/commands") b with
  | None =>
      (* the error is dropped and [req.SetBasicAuth] dereferences nil *)
      panic "invalid memory address or nil pointer dereference"
  | Some req =>
      let req := Request.SetBasicAuth "micromdm" (Server.MDMAPIKey s) req in
      var r := Do req in
      match r with
      | DoError err =>
          log (logrus_Errorf "send command to device: %v" [ArgError err]) ;;;
          Fatal err
      | DoResponse _ => ret tt
      end
  end.

Definition handleAuthenticate (event : Event.t) : M unit :=
  log (logrus_Infof "handleAuthenticate for event %+v" [ArgEvent event]) ;;;
  match Event.CheckinEvent event with
  | None =>
      log (logrus_Error "The event has no CheckinEvent") ;;;
      http_Error "The event has no CheckinEvent" StatusBadRequest
  | Some checkin =>
      var s := getServer in
      let '(d, exists_) := map_index_ok (Server.Devices s) (CheckinEvent.UDID checkin) in
      let d := Device.set_UDID (CheckinEvent.UDID checkin) d in
      let d := Device.set_Enrolled false d in
      setDevices (<[CheckinEvent.UDID checkin := d]> (Server.Devices s)) ;;;
      if exists_
      then log (log_Println [ArgString "re-enrolling device"; ArgString (Device.UDID d)])
      else log (log_Println [ArgString "enrolling new device"; ArgString (Device.UDID d)])
  end.

Definition handleTokenUpdate (event : Event.t) : M unit :=
  log (logrus_Infof "handleTokenUpdate for event %+v" [ArgEvent event]) ;;;
  match Event.CheckinEvent event with
  | None =>
      log (logrus_Error "The event has no CheckinEvent") ;;;
      http_Error "The event has no CheckinEvent" StatusBadRequest
  | Some checkin =>
      var s := getServer in
      let d := map_index (Server.Devices s) (CheckinEvent.UDID checkin) in
      let d := Device.set_UDID (CheckinEvent.UDID checkin) d in
      let d := Device.set_Enrolled true d in
      setDevices (<[CheckinEvent.UDID checkin := d]> (Server.Devices s)) ;;;
      sendCommandToDevice d "InstalledApplicationList"
  end.

Definition handleConnect (event : Event.t) : M unit :=
  log (logrus_Infof "handleConnect for event %+v" [ArgEvent event]) ;;;
  match Event.AcknowledgeEvent event with
  | None =>
      log (logrus_Error "The event has no AcknowledgeEvent") ;;;
      http_Error "The event has no AcknowledgeEvent" StatusBadRequest
  | Some ack =>
      let xml := AcknowledgeEvent.RawPayload ack in
      if Contains xml "InstalledApplicationList"
      then log (log_Println [ArgString xml])
      else ret tt
  end.

Definition handleCheckOut (event : Event.t) : M unit :=
  log (logrus_Infof "handeCheckOUt for event %+v" [ArgEvent event]) ;;;
  match Event.CheckinEvent event with
  | None =>
      log (logrus_Error "The event has no CheckinEvent") ;;;
      http_Error "The event has no CheckinEvent" StatusBadRequest
  | Some checkin =>
      var s := getServer in
      let d := map_index (Server.Devices s) (CheckinEvent.UDID checkin) in
      let d := Device.set_UDID (CheckinEvent.UDID checkin) d in
      let d := Device.set_Enrolled false d in
      setDevices (<[CheckinEvent.UDID checkin := d]> (Server.Devices s))
  end.

Definition unknown_topic_format : string :=
  "The event's topic was not mdm.Authenticate, mdm.TokenUpdate, mdm.Connect, or mdm.Checkout. It was %q".

Definition handleWebhook (r : Decoded) : M unit :=
  match r with
  | DecodeError err =>
      log (logrus_Errorf "decode JSON: %v" [ArgError err]) ;;;
      http_Error ("decode JSON: " +:+ err) StatusBadRequest
  | DecodeOk event =>
      if String.eqb (Event.Topic event) (AuthenticateTopic E) then handleAuthenticate event
      else if String.eqb (Event.Topic event) (TokenUpdateTopic E) then handleTokenUpdate event
      else if String.eqb (Event.Topic event) (ConnectTopic E) then handleConnect event
      else if String.eqb (Event.Topic event) (CheckoutTopic E) then handleCheckOut event
      else log (logrus_Warnf unknown_topic_format [ArgString (Event.Topic event)])
  end.

(** ** The server loop *)

(** [net/http] hands every request a new [ResponseWriter]. *)
Definition new_request (st : State) : State :=
  mkState (srv st) ResponseWriter.fresh (logs st) (posts st).

(** The requests of [reqs], handled one after the other on [/webhook]:
    [net/http] recovers a handler's panic and goes on serving, [os.Exit]
    ends the process. *)
Fixpoint serve (reqs : list Decoded) (st : State) : Outcome unit * State :=
  match reqs with
  | [] => (Returned tt, st)
  | r :: rest =>
      match handleWebhook r (new_request st) with
      | (Exited code, st') => (Exited code, st')
      | (_, st') => serve rest st'
      end
  end.

(** The requests of [reqs] that reach the handler before the process ends. *)
Fixpoint served (reqs : list Decoded) (st : State) : list Decoded :=
  match reqs with
  | [] => []
  | r :: rest =>
      r :: match handleWebhook r (new_request st) with
           | (Exited _, _) => []
           | (_, st') => served rest st'
           end
  end.

(** ** Vocabulary of the properties *)

(** The event of [r] carries identifier [u], in either payload. *)
Definition references (u : string) (r : Decoded) : bool :=
  match r with
  | DecodeError _ => false
  | DecodeOk e =>
      match Event.CheckinEvent e with
      | Some c => String.eqb (CheckinEvent.UDID c) u
      | None => false
      end
      || match Event.AcknowledgeEvent e with
         | Some a => String.eqb (AcknowledgeEvent.UDID a) u
         | None => false
         end
  end.

(** What a request writes to the registry, read off the topic and the
    checkin payload: the identifier and the enrollment flag it gets. *)
Definition registration (r : Decoded) : option (string * bool) :=
  match r with
  | DecodeError _ => None
  | DecodeOk e =>
      match Event.CheckinEvent e with
      | None => None
      | Some c =>
          if String.eqb (Event.Topic e) (AuthenticateTopic E)
          then Some (CheckinEvent.UDID c, false)
          else if String.eqb (Event.Topic e) (TokenUpdateTopic E)
          then Some (CheckinEvent.UDID c, true)
          else if String.eqb (Event.Topic e) (CheckoutTopic E)
          then Some (CheckinEvent.UDID c, false)
          else None
      end
  end.

(** [r] is an Authenticate, TokenUpdate or CheckOut event whose checkin
    payload carries identifier [u]. *)
Definition registers (u : string) (r : Decoded) : bool :=
  match registration r with
  | Some (u', _) => String.eqb u' u
  | None => false
  end.

End Handlers.

(** The registry after a write, or untouched. *)
Definition registry_step (w : option (string * bool)) (m : gmap string Device.t)
  : gmap string Device.t :=
  match w with
  | Some (u, enrolled) => <[u := Device.mk u enrolled]> m
  | None => m
  end.

(** How a handler refuses an event that lacks its payload: one error line
    after the handler's first log line [name], and a 400 with [msg]. *)
Definition refused (name msg : string) (e : Event.t) (st : State) : Outcome unit * State :=
  (Returned tt,
   mkState (srv st) (ResponseWriter.Error msg StatusBadRequest (writer st))
           (logs st ++ [logrus_Infof name [ArgEvent e]; logrus_Error msg])
           (posts st)).

(** [sub] occurs in [s] as a substring *)
Definition occurs_in (sub s : string) : Prop :=
  exists pre post, s = pre +:+ sub +:+ post.

(** a [log.Println] line that consists of the blob, byte for byte; the
    [%+v] rendering of an event prints its payload pointers as addresses
    and so never shows the blob *)
Definition logged_verbatim (blob : string) (entries : list LogEntry) : Prop :=
  In (log_Println [ArgString blob]) entries.

(** The delivery failed: no response (transport), or the server refused
    the credentials (401 Unauthorized). *)
Definition delivery_failed (r : DoResult) : bool :=
  match r with
  | DoError _ => true
  | DoResponse code => Nat.eqb code 401
  end.

(** The request [sendCommandToDevice] builds for a device and a label. *)
Definition command_request (s : Server.t) (udid requestType : string) : Request.t :=
  Request.mk "POST" (Server.MDMServerURL s +:+ "/v1/commands")
             (Some ("micromdm", Server.MDMAPIKey s))
             [("udid", udid); ("request_type", requestType)].

(** ** Sample data *)

Definition sample_server : Server.t :=
  Server.mk "https://mdm.example.com" "secret" ∅.

Definition sample_state : State :=
  mkState sample_server ResponseWriter.fresh [] [].

Definition enrolled_state : State :=
  mkState (Server.mk "https://mdm.example.com" "secret"
             (<["ABC" := Device.mk "ABC" true]> (<["XYZ" := Device.mk "XYZ" true]> ∅)))
          ResponseWriter.fresh [] [].

(** a server started with [-server-url 192.168.1.1:8080], the scheme left out *)
Definition schemeless_state : State :=
  mkState (Server.mk "192.168.1.1:8080" "secret" ∅) ResponseWriter.fresh [] [].

Definition checkin_event (topic udid : string) : Event.t :=
  Event.mk topic None (Some (CheckinEvent.mk udid)).

Definition ack_event (topic udid raw : string) : Event.t :=
  Event.mk topic (Some (AcknowledgeEvent.mk udid raw)) None.

Definition empty_event (topic : string) : Event.t :=
  Event.mk topic None None.

(** [net/url] on the URLs used below: it refuses
    ["192.168.1.1:8080/v1/commands"] (first path segment in URL cannot
    contain colon) and accepts ["https://mdm.example.com/v1/commands"]. *)
Definition parse_sample (url : string) : bool :=
  negb (String.eqb url "192.168.1.1:8080/v1/commands").

Definition net_ok (n : nat) (r : Request.t) : DoResult := DoResponse 200.
Definition net_unauthorized (n : nat) (r : Request.t) : DoResult := DoResponse 401.
Definition net_down (n : nat) (r : Request.t) : DoResult := DoError "connection refused".

Definition mdm_env (net : nat -> Request.t -> DoResult) : Env :=
  mkEnv "mdm.Authenticate" "mdm.TokenUpdate" "mdm.Connect" "mdm.CheckOut" parse_sample net.

(** ** Start-up *)

(** [c] is one of the bytes of [cutset] *)
Fixpoint in_cutset (cutset : string) (c : ascii) : bool :=
  match cutset with
  | EmptyString => false
  | String c' rest => Ascii.eqb c c' || in_cutset rest c
  end.

(** [strings.TrimRight(s, cutset)] for a cutset of ASCII bytes: the longest
    run of bytes of [cutset] at the end of [s] is cut off. *)
Fixpoint TrimRight (s cutset : string) : string :=
  match s with
  | EmptyString => EmptyString
  | String c s' =>
      match TrimRight s' cutset with
      | EmptyString => if in_cutset cutset c then EmptyString else String c EmptyString
      | String c1 t => String c (String c1 t)
      end
  end.

(** [main], from the parsed flags [-server-url] and [-api-token] to the
    [Server] whose handlers are installed; [None] is [flag.PrintDefaults()]
    followed by [os.Exit(1)]. *)
Definition main_server (flServerURL flAPIKey : string) : option Server.t :=
  if String.eqb flServerURL EmptyString || String.eqb flAPIKey EmptyString
  then None
  else Some (Server.mk (TrimRight flServerURL "/") flAPIKey ∅).

(** [n] slashes *)
Fixpoint slashes (n : nat) : string :=
  match n with
  | O => EmptyString
  | S k => String "/" (slashes k)
  end.

(** ** Vocabulary of runs *)

(** The identifier of a TokenUpdate event with checkin payload. *)
Definition token_update_id (E : Env) (r : Decoded) : option string :=
  match registration E r with
  | Some (u, true) => Some u
  | _ => None
  end.

(** The inventory commands a server [s] owes for the TokenUpdate events of
    [reqs], one per event, in order. *)
Definition inventory_commands (E : Env) (s : Server.t) (reqs : list Decoded)
  : list Request.t :=
  omap (fun r => option_map
                   (fun u => command_request s u "InstalledApplicationList")
                   (token_update_id E r))
       reqs.

(** The enrollment flag the latest request of [reqs] that registers [u]
    gives it. *)
Fixpoint last_registration (E : Env) (u : string) (reqs : list Decoded) : option bool :=
  match reqs with
  | [] => None
  | r :: rest =>
      match last_registration E u rest with
      | Some b => Some b
      | None =>
          match registration E r with
          | Some (u', b) => if String.eqb u' u then Some b else None
          | None => None
          end
      end
  end.

(** Every record sits under its own identifier. *)
Definition keyed_by_UDID (m : gmap string Device.t) : Prop :=
  map_Forall (fun u d => Device.UDID d = u) m.

(** * Properties *)

(** ** Substring search *)

Lemma HasPrefix_spec (p s : string) :
  HasPrefix s p = true <-> exists t, s = p +:+ t.
Proof.
  revert s. induction p as [|c p IH]; intros s; simpl.
  - split; [intros _; exists s; reflexivity | reflexivity].
  - destruct s as [|c' s'].
    + split; [discriminate | intros [t Ht]; discriminate].
    + rewrite andb_true_iff, Ascii.eqb_eq, IH. split.
      * intros [-> [t ->]]. exists t. reflexivity.
      * intros [t Ht]. injection Ht as -> ->. split; [reflexivity | exists t; reflexivity].
Qed.

Lemma Contains_spec (sub s : string) :
  Contains s sub = true <-> occurs_in sub s.
Proof.
  unfold occurs_in. induction s as [|a s IH]; simpl.
  - rewrite orb_false_r, HasPrefix_spec. split.
    + intros [t Ht]. exists EmptyString, t. exact Ht.
    + intros [pre [post H]]. destruct pre; [exists post; exact H | discriminate].
  - rewrite orb_true_iff, HasPrefix_spec, IH. split.
    + intros [[t Ht] | [pre [post H]]].
      * exists EmptyString, t. exact Ht.
      * exists (String a pre), post. simpl. rewrite H. reflexivity.
    + intros [pre [post H]]. destruct pre as [|b pre]; simpl in H.
      * left. exists post. exact H.
      * right. injection H as _ H. exists pre, post. exact H.
Qed.

(** ** The classifier's routing *)

Lemma topics_distinct_neq (E : Env) :
  topics_distinct E ->
  AuthenticateTopic E <> TokenUpdateTopic E /\
  AuthenticateTopic E <> ConnectTopic E /\
  AuthenticateTopic E <> CheckoutTopic E /\
  TokenUpdateTopic E <> ConnectTopic E /\
  TokenUpdateTopic E <> CheckoutTopic E /\
  ConnectTopic E <> CheckoutTopic E.
Proof.
  unfold topics_distinct. intros H.
  apply NoDup_cons in H as [Ha H].
  apply NoDup_cons in H as [Ht H].
  apply NoDup_cons in H as [Hc _].
  repeat split; intros Heq; set_solver.
Qed.

Lemma mdm_env_distinct (net : nat -> Request.t -> DoResult) :
  topics_distinct (mdm_env net).
Proof.
  unfold topics_distinct, mdm_env; simpl.
  repeat (apply NoDup_cons; split;
          [rewrite ?elem_of_cons, elem_of_nil; intros H; repeat destruct H as [H|H];
           try discriminate H; exact H |]).
  apply NoDup_nil; exact I.
Defined.

Section Routing.

Variable E : Env.

Lemma handleWebhook_Authenticate (e : Event.t) :
  Event.Topic e = AuthenticateTopic E ->
  handleWebhook E (DecodeOk e) = handleAuthenticate e.
Proof. intros H. simpl. rewrite H, String.eqb_refl. reflexivity. Qed.

Lemma handleWebhook_TokenUpdate (e : Event.t) :
  topics_distinct E ->
  Event.Topic e = TokenUpdateTopic E ->
  handleWebhook E (DecodeOk e) = handleTokenUpdate E e.
Proof.
  intros Hd H. apply topics_distinct_neq in Hd as (Hat & _).
  simpl. rewrite H, String.eqb_refl.
  destruct (String.eqb_spec (TokenUpdateTopic E) (AuthenticateTopic E)); congruence.
Qed.

Lemma handleWebhook_Connect (e : Event.t) :
  topics_distinct E ->
  Event.Topic e = ConnectTopic E ->
  handleWebhook E (DecodeOk e) = handleConnect e.
Proof.
  intros Hd H. apply topics_distinct_neq in Hd as (_ & Hac & _ & Htc & _).
  simpl. rewrite H, String.eqb_refl.
  destruct (String.eqb_spec (ConnectTopic E) (AuthenticateTopic E)); [congruence|].
  destruct (String.eqb_spec (ConnectTopic E) (TokenUpdateTopic E)); congruence.
Qed.

Lemma handleWebhook_CheckOut (e : Event.t) :
  topics_distinct E ->
  Event.Topic e = CheckoutTopic E ->
  handleWebhook E (DecodeOk e) = handleCheckOut e.
Proof.
  intros Hd H. apply topics_distinct_neq in Hd as (_ & _ & Hao & _ & Hto & Hco).
  simpl. rewrite H, String.eqb_refl.
  destruct (String.eqb_spec (CheckoutTopic E) (AuthenticateTopic E)); [congruence|].
  destruct (String.eqb_spec (CheckoutTopic E) (TokenUpdateTopic E)); [congruence|].
  destruct (String.eqb_spec (CheckoutTopic E) (ConnectTopic E)); congruence.
Qed.

Lemma handleWebhook_unknown (e : Event.t) :
  ~ In (Event.Topic e)
       [AuthenticateTopic E; TokenUpdateTopic E; ConnectTopic E; CheckoutTopic E] ->
  handleWebhook E (DecodeOk e) =
  log (logrus_Warnf unknown_topic_format [ArgString (Event.Topic e)]).
Proof.
  intros H. simpl in *.
  destruct (String.eqb_spec (Event.Topic e) (AuthenticateTopic E)); [exfalso; auto|].
  destruct (String.eqb_spec (Event.Topic e) (TokenUpdateTopic E)); [exfalso; auto|].
  destruct (String.eqb_spec (Event.Topic e) (ConnectTopic E)); [exfalso; auto|].
  destruct (String.eqb_spec (Event.Topic e) (CheckoutTopic E)); [exfalso; auto 6|].
  reflexivity.
Qed.

End Routing.

(** ** What each handler does to the state *)

Ltac run :=
  unfold handleAuthenticate, handleTokenUpdate, handleConnect, handleCheckOut,
    sendCommandToDevice, Fatal, Do, http_NewRequest, bind, ret, log, http_Error,
    getServer, setDevices, os_Exit, panic, map_index, map_index_ok, refused,
    json_Encode_Command, Request.SetBasicAuth, command_request; simpl.

Section HandlerEquations.

Variable E : Env.

Lemma sendCommandToDevice_unparsable (d : Device.t) (rt : string) (st : State) :
  url_Parse E (Server.MDMServerURL (srv st) +:+ "/v1/commands") = false ->
  sendCommandToDevice E d rt st =
  (Panicked "invalid memory address or nil pointer dereference", st).
Proof. intros H. run. rewrite H. reflexivity. Qed.

Lemma sendCommandToDevice_response (d : Device.t) (rt : string) (st : State) (code : nat) :
  url_Parse E (Server.MDMServerURL (srv st) +:+ "/v1/commands") = true ->
  client_Do E (length (posts st)) (command_request (srv st) (Device.UDID d) rt)
    = DoResponse code ->
  sendCommandToDevice E d rt st =
  (Returned tt,
   mkState (srv st) (writer st) (logs st)
           (posts st ++ [command_request (srv st) (Device.UDID d) rt])).
Proof.
  intros H Hdo. unfold command_request in Hdo. run. rewrite H. simpl.
  rewrite Hdo. reflexivity.
Qed.

Lemma sendCommandToDevice_error (d : Device.t) (rt : string) (st : State) (err : string) :
  url_Parse E (Server.MDMServerURL (srv st) +:+ "/v1/commands") = true ->
  client_Do E (length (posts st)) (command_request (srv st) (Device.UDID d) rt)
    = DoError err ->
  sendCommandToDevice E d rt st =
  (Exited 1,
   mkState (srv st) (writer st)
           (logs st ++ [logrus_Errorf "send command to device: %v" [ArgError err];
                        log_Fatal err])
           (posts st ++ [command_request (srv st) (Device.UDID d) rt])).
Proof.
  intros H Hdo. unfold command_request in Hdo. run. rewrite H. simpl.
  rewrite Hdo. simpl. rewrite <- app_assoc. reflexivity.
Qed.

(** The dispatcher never touches the server record or the response. *)
Lemma sendCommandToDevice_srv (d : Device.t) (rt : string) (st : State) :
  srv (snd (sendCommandToDevice E d rt st)) = srv st /\
  writer (snd (sendCommandToDevice E d rt st)) = writer st.
Proof.
  destruct (url_Parse E (Server.MDMServerURL (srv st) +:+ "/v1/commands")) eqn:Hp.
  - destruct (client_Do E (length (posts st))
                (command_request (srv st) (Device.UDID d) rt)) eqn:Hdo.
    + rewrite (sendCommandToDevice_response _ _ _ _ Hp Hdo). split; reflexivity.
    + rewrite (sendCommandToDevice_error _ _ _ _ Hp Hdo). split; reflexivity.
  - rewrite (sendCommandToDevice_unparsable _ _ _ Hp). split; reflexivity.
Qed.

(** Once the request is built, exactly that one request goes out. *)
Lemma sendCommandToDevice_posts (d : Device.t) (rt : string) (st : State) :
  url_Parse E (Server.MDMServerURL (srv st) +:+ "/v1/commands") = true ->
  posts (snd (sendCommandToDevice E d rt st)) =
  posts st ++ [command_request (srv st) (Device.UDID d) rt].
Proof.
  intros Hp.
  destruct (client_Do E (length (posts st))
              (command_request (srv st) (Device.UDID d) rt)) eqn:Hdo.
  - rewrite (sendCommandToDevice_response _ _ _ _ Hp Hdo). reflexivity.
  - rewrite (sendCommandToDevice_error _ _ _ _ Hp Hdo). reflexivity.
Qed.

Lemma handleAuthenticate_checkin (e : Event.t) (c : CheckinEvent.t) (st : State) :
  Event.CheckinEvent e = Some c ->
  handleAuthenticate e st =
  (Returned tt,
   mkState (Server.set_Devices
              (<[CheckinEvent.UDID c := Device.mk (CheckinEvent.UDID c) false]>
                 (Server.Devices (srv st)))
              (srv st))
           (writer st)
           (logs st ++
              [logrus_Infof "handleAuthenticate for event %+v" [ArgEvent e];
               log_Println
                 [ArgString match Server.Devices (srv st) !! CheckinEvent.UDID c with
                            | Some _ => "re-enrolling device"
                            | None => "enrolling new device"
                            end;
                  ArgString (CheckinEvent.UDID c)]])
           (posts st)).
Proof.
  intros H. run. rewrite H. simpl.
  destruct (Server.Devices (srv st) !! CheckinEvent.UDID c); simpl;
    rewrite <- app_assoc; reflexivity.
Qed.

Lemma handleTokenUpdate_checkin (e : Event.t) (c : CheckinEvent.t) (st : State) :
  Event.CheckinEvent e = Some c ->
  handleTokenUpdate E e st =
  sendCommandToDevice E (Device.mk (CheckinEvent.UDID c) true) "InstalledApplicationList"
    (mkState (Server.set_Devices
                (<[CheckinEvent.UDID c := Device.mk (CheckinEvent.UDID c) true]>
                   (Server.Devices (srv st)))
                (srv st))
             (writer st)
             (logs st ++ [logrus_Infof "handleTokenUpdate for event %+v" [ArgEvent e]])
             (posts st)).
Proof. intros H. run. rewrite H. reflexivity. Qed.

Lemma handleCheckOut_checkin (e : Event.t) (c : CheckinEvent.t) (st : State) :
  Event.CheckinEvent e = Some c ->
  handleCheckOut e st =
  (Returned tt,
   mkState (Server.set_Devices
              (<[CheckinEvent.UDID c := Device.mk (CheckinEvent.UDID c) false]>
                 (Server.Devices (srv st)))
              (srv st))
           (writer st)
           (logs st ++ [logrus_Infof "handeCheckOUt for event %+v" [ArgEvent e]])
           (posts st)).
Proof. intros H. run. rewrite H. reflexivity. Qed.

Lemma handleAuthenticate_no_checkin (e : Event.t) (st : State) :
  Event.CheckinEvent e = None ->
  handleAuthenticate e st =
  refused "handleAuthenticate for event %+v" "The event has no CheckinEvent" e st.
Proof. intros H. run. rewrite H. simpl. rewrite <- app_assoc. reflexivity. Qed.

Lemma handleTokenUpdate_no_checkin (e : Event.t) (st : State) :
  Event.CheckinEvent e = None ->
  handleTokenUpdate E e st =
  refused "handleTokenUpdate for event %+v" "The event has no CheckinEvent" e st.
Proof. intros H. run. rewrite H. simpl. rewrite <- app_assoc. reflexivity. Qed.

Lemma handleCheckOut_no_checkin (e : Event.t) (st : State) :
  Event.CheckinEvent e = None ->
  handleCheckOut e st =
  refused "handeCheckOUt for event %+v" "The event has no CheckinEvent" e st.
Proof. intros H. run. rewrite H. simpl. rewrite <- app_assoc. reflexivity. Qed.

Lemma handleConnect_no_acknowledge (e : Event.t) (st : State) :
  Event.AcknowledgeEvent e = None ->
  handleConnect e st =
  refused "handleConnect for event %+v" "The event has no AcknowledgeEvent" e st.
Proof. intros H. run. rewrite H. simpl. rewrite <- app_assoc. reflexivity. Qed.

Lemma handleConnect_acknowledge (e : Event.t) (a : AcknowledgeEvent.t) (st : State) :
  Event.AcknowledgeEvent e = Some a ->
  handleConnect e st =
  (Returned tt,
   mkState (srv st) (writer st)
           (logs st ++
              logrus_Infof "handleConnect for event %+v" [ArgEvent e] ::
              (if Contains (AcknowledgeEvent.RawPayload a) "InstalledApplicationList"
               then [log_Println [ArgString (AcknowledgeEvent.RawPayload a)]]
               else []))
           (posts st)).
Proof.
  intros H. run. rewrite H. simpl.
  destruct (Contains (AcknowledgeEvent.RawPayload a) "InstalledApplicationList"); simpl.
  - rewrite <- app_assoc. reflexivity.
  - reflexivity.
Qed.

End HandlerEquations.

(** ** The registry as a state machine *)

Section Registry.

Variable E : Env.
Hypothesis distinct : topics_distinct E.

(** Whatever the request and however the handler ends, the registry
    moves by [registry_step]. *)
Lemma handleWebhook_Devices (r : Decoded) (st : State) :
  Server.Devices (srv (snd (handleWebhook E r st))) =
  registry_step (registration E r) (Server.Devices (srv st)).
Proof.
  destruct r as [err|e]; [reflexivity|].
  pose proof (topics_distinct_neq E distinct) as (Hat & Hac & Hao & Htc & Hto & Hco).
  unfold registration, handleWebhook.
  destruct (String.eqb_spec (Event.Topic e) (AuthenticateTopic E)) as [Ha|Ha].
  { destruct (Event.CheckinEvent e) as [c|] eqn:Hc.
    - rewrite (handleAuthenticate_checkin e c st Hc). reflexivity.
    - rewrite (handleAuthenticate_no_checkin e st Hc). reflexivity. }
  destruct (String.eqb_spec (Event.Topic e) (TokenUpdateTopic E)) as [Ht|Ht].
  { destruct (Event.CheckinEvent e) as [c|] eqn:Hc.
    - rewrite (handleTokenUpdate_checkin E e c st Hc).
      rewrite (proj1 (sendCommandToDevice_srv E _ _ _)). reflexivity.
    - rewrite (handleTokenUpdate_no_checkin E e st Hc). reflexivity. }
  destruct (String.eqb_spec (Event.Topic e) (ConnectTopic E)) as [Hc|Hc].
  { destruct (String.eqb_spec (Event.Topic e) (CheckoutTopic E)) as [Ho|_];
      [congruence|].
    destruct (Event.AcknowledgeEvent e) as [a|] eqn:Hack.
    - rewrite (handleConnect_acknowledge e a st Hack).
      destruct (Event.CheckinEvent e); reflexivity.
    - rewrite (handleConnect_no_acknowledge e st Hack).
      destruct (Event.CheckinEvent e); reflexivity. }
  destruct (String.eqb_spec (Event.Topic e) (CheckoutTopic E)) as [Ho|Ho].
  { destruct (Event.CheckinEvent e) as [c|] eqn:Hck.
    - rewrite (handleCheckOut_checkin e c st Hck). reflexivity.
    - rewrite (handleCheckOut_no_checkin e st Hck). reflexivity. }
  destruct (Event.CheckinEvent e); reflexivity.
Qed.

Lemma registry_step_lookup (w : option (string * bool)) (m : gmap string Device.t)
      (u : string) :
  is_Some (registry_step w m !! u) <->
  is_Some (m !! u) \/ match w with Some (u', _) => String.eqb u' u | None => false end = true.
Proof.
  destruct w as [[u' b]|]; simpl.
  - destruct (String.eqb_spec u' u) as [->|Hne].
    + rewrite lookup_insert_eq. split; [auto | intros _; eexists; reflexivity].
    + rewrite lookup_insert_ne by exact Hne. split; [auto | intros [H|H]; [exact H | discriminate]].
  - split; [auto | intros [H|H]; [exact H | discriminate]].
Qed.

Lemma handleWebhook_step (r : Decoded) (st : State) (u : string) :
  is_Some (Server.Devices (srv (snd (handleWebhook E r st))) !! u) <->
  is_Some (Server.Devices (srv st) !! u) \/ registers E u r = true.
Proof. rewrite handleWebhook_Devices. apply registry_step_lookup. Qed.

Lemma serve_registry (reqs : list Decoded) (st : State) (u : string) :
  is_Some (Server.Devices (srv (snd (serve E reqs st))) !! u) <->
  is_Some (Server.Devices (srv st) !! u) \/
  Exists (fun r => registers E u r = true) (served E reqs st).
Proof.
  revert st. induction reqs as [|r rest IH]; intros st; simpl.
  - rewrite Exists_nil. tauto.
  - pose proof (handleWebhook_step r (new_request st) u) as Hstep.
    destruct (handleWebhook E r (new_request st)) as [[a|code|msg] st'];
      simpl in Hstep; rewrite Exists_cons.
    + rewrite IH, Hstep. tauto.
    + simpl. rewrite Exists_nil, Hstep. tauto.
    + rewrite IH, Hstep. tauto.
Qed.

Lemma registration_checkin (e : Event.t) (c : CheckinEvent.t) (u : string) (b : bool) :
  Event.CheckinEvent e = Some c ->
  registration E (DecodeOk e) = Some (u, b) ->
  u = CheckinEvent.UDID c.
Proof.
  unfold registration. intros ->.
  repeat match goal with |- context [if ?b then _ else _] => destruct b end;
    intros H; inversion H; reflexivity.
Qed.

End Registry.

(** ** The TokenUpdate handler and the dispatcher *)

(** A TokenUpdate with a checkin payload enrols the identifier whatever
    happens afterwards in the dispatcher. *)
Lemma handleTokenUpdate_enrolls (E : Env) (e : Event.t) (c : CheckinEvent.t) (st : State) :
  Event.CheckinEvent e = Some c ->
  Server.Devices (srv (snd (handleTokenUpdate E e st))) !! CheckinEvent.UDID c =
  Some (Device.mk (CheckinEvent.UDID c) true).
Proof.
  intros H. rewrite (handleTokenUpdate_checkin E e c st H).
  rewrite (proj1 (sendCommandToDevice_srv E _ _ _)). simpl.
  apply lookup_insert_eq.
Qed.

(** When the command URL parses, a TokenUpdate sends exactly one request,
    the InstalledApplicationList command for its identifier. *)
Lemma handleTokenUpdate_dispatch (E : Env) (e : Event.t) (c : CheckinEvent.t) (st : State) :
  Event.CheckinEvent e = Some c ->
  url_Parse E (Server.MDMServerURL (srv st) +:+ "/v1/commands") = true ->
  posts (snd (handleTokenUpdate E e st)) =
  posts st ++ [command_request (srv st) (CheckinEvent.UDID c) "InstalledApplicationList"].
Proof.
  intros H Hp. rewrite (handleTokenUpdate_checkin E e c st H).
  rewrite sendCommandToDevice_posts by exact Hp. reflexivity.
Qed.

(** C1: a TokenUpdate event with a checkin payload enrols its identifier
    and should send exactly one InstalledApplicationList command.  On a
    server whose command URL does not parse, the handler enrols the
    identifier and then panics in the dispatcher: no request goes out. *)
Theorem token_update_unparsable_url :
  let r := handleWebhook (mdm_env net_ok)
             (DecodeOk (checkin_event "mdm.TokenUpdate" "ABC")) schemeless_state in
  fst r = Panicked "invalid memory address or nil pointer dereference" /\
  Server.Devices (srv (snd r)) !! "ABC" = Some (Device.mk "ABC" true) /\
  posts (snd r) = [].
Proof. repeat split; vm_compute; reflexivity. Qed.

(** C8: the dispatcher should send exactly one POST per device and label.
    When [http.NewRequest] refuses the URL, its error is dropped, the nil
    request is dereferenced and the state is left as it was: nothing is
    sent. *)
Theorem dispatcher_unparsable_url :
  sendCommandToDevice (mdm_env net_ok) (Device.mk "ABC" true) "InstalledApplicationList"
    schemeless_state =
  (Panicked "invalid memory address or nil pointer dereference", schemeless_state).
Proof. reflexivity. Qed.

(** C9, as stated: the process would terminate exactly when the delivery
    fails, a refusal of the credentials included.  A 401 answer is a
    failed delivery and the dispatcher returns normally. *)
Lemma unauthorized_is_not_fatal :
  ~ (delivery_failed
       (client_Do (mdm_env net_unauthorized) (length (posts sample_state))
          (command_request sample_server "ABC" "InstalledApplicationList")) = true <->
     fst (sendCommandToDevice (mdm_env net_unauthorized) (Device.mk "ABC" true)
            "InstalledApplicationList" sample_state) = Exited 1).
Proof. intros [H _]. specialize (H eq_refl). vm_compute in H. discriminate H. Qed.

(** C9, amended: once the request is built, the dispatcher logs the error
    and ends the process exactly when [client.Do] returns an error; when a
    response comes back, whatever its status code, it logs nothing and
    returns. *)
Theorem dispatcher_fatal_iff_Do_error (E : Env) (d : Device.t) (rt : string) (st : State) :
  url_Parse E (Server.MDMServerURL (srv st) +:+ "/v1/commands") = true ->
  let ans := client_Do E (length (posts st))
               (command_request (srv st) (Device.UDID d) rt) in
  let r := sendCommandToDevice E d rt st in
  (fst r = Exited 1 <-> exists err, ans = DoError err) /\
  (fst r = Returned tt <-> exists code, ans = DoResponse code) /\
  logs (snd r) =
    logs st ++ match ans with
               | DoError err =>
                   [logrus_Errorf "send command to device: %v" [ArgError err];
                    log_Fatal err]
               | DoResponse _ => []
               end.
Proof.
  intros Hp ans r. subst r.
  destruct ans as [code|err] eqn:Hans; subst ans.
  - rewrite (sendCommandToDevice_response E d rt st code Hp Hans). simpl.
    rewrite app_nil_r. repeat split.
    + discriminate.
    + intros [err Herr]. discriminate.
    + exists code. reflexivity.
  - rewrite (sendCommandToDevice_error E d rt st err Hp Hans). simpl.
    repeat split.
    + exists err. reflexivity.
    + discriminate.
    + intros [code Hc]. discriminate.
Qed.

Lemma dispatcher_fatal_iff_Do_error_witness :
  let E := mdm_env net_down in
  let r := sendCommandToDevice E (Device.mk "ABC" true) "InstalledApplicationList"
             sample_state in
  (fst r = Exited 1 <-> exists err, net_down 0 (command_request sample_server "ABC"
                                     "InstalledApplicationList") = DoError err) /\
  (fst r = Returned tt <-> exists code, net_down 0 (command_request sample_server "ABC"
                                     "InstalledApplicationList") = DoResponse code) /\
  logs (snd r) =
    [logrus_Errorf "send command to device: %v" [ArgError "connection refused"];
     log_Fatal "connection refused"].
Proof.
  exact (dispatcher_fatal_iff_Do_error (mdm_env net_down) (Device.mk "ABC" true)
           "InstalledApplicationList" sample_state eq_refl).
Defined.

(** ** The handlers' contracts *)

(** C3: an Authenticate event whose checkin payload carries an identifier
    without registry entry creates the entry for that identifier, with
    enrollment false, and reports a new device. *)
Theorem authenticate_new_device (E : Env) (e : Event.t) (c : CheckinEvent.t) (st : State) :
  Event.Topic e = AuthenticateTopic E ->
  Event.CheckinEvent e = Some c ->
  Server.Devices (srv st) !! CheckinEvent.UDID c = None ->
  let r := handleWebhook E (DecodeOk e) st in
  fst r = Returned tt /\
  Server.Devices (srv (snd r)) !! CheckinEvent.UDID c =
    Some (Device.mk (CheckinEvent.UDID c) false) /\
  logs (snd r) =
    logs st ++ [logrus_Infof "handleAuthenticate for event %+v" [ArgEvent e];
                log_Println [ArgString "enrolling new device";
                             ArgString (CheckinEvent.UDID c)]].
Proof.
  intros Ht Hc Hnew r. subst r.
  rewrite (handleWebhook_Authenticate E e Ht), (handleAuthenticate_checkin e c st Hc).
  simpl. rewrite Hnew. repeat split. apply lookup_insert_eq.
Qed.

Lemma authenticate_new_device_witness :
  let r := handleWebhook (mdm_env net_ok)
             (DecodeOk (checkin_event "mdm.Authenticate" "ABC")) sample_state in
  fst r = Returned tt /\
  Server.Devices (srv (snd r)) !! "ABC" = Some (Device.mk "ABC" false) /\
  logs (snd r) =
    [logrus_Infof "handleAuthenticate for event %+v"
       [ArgEvent (checkin_event "mdm.Authenticate" "ABC")];
     log_Println [ArgString "enrolling new device"; ArgString "ABC"]].
Proof.
  exact (authenticate_new_device (mdm_env net_ok) (checkin_event "mdm.Authenticate" "ABC")
           (CheckinEvent.mk "ABC") sample_state eq_refl eq_refl eq_refl).
Defined.

(** C4: a CheckOut event with a checkin payload leaves its identifier with
    enrollment false in every registry, whether the record was enrolled,
    unenrolled or absent before, and sends nothing. *)
Theorem checkout_unenrolls (E : Env) (e : Event.t) (c : CheckinEvent.t) (st : State) :
  topics_distinct E ->
  Event.Topic e = CheckoutTopic E ->
  Event.CheckinEvent e = Some c ->
  let r := handleWebhook E (DecodeOk e) st in
  fst r = Returned tt /\
  Server.Devices (srv (snd r)) !! CheckinEvent.UDID c =
    Some (Device.mk (CheckinEvent.UDID c) false) /\
  posts (snd r) = posts st.
Proof.
  intros Hd Ht Hc r. subst r.
  rewrite (handleWebhook_CheckOut E e Hd Ht), (handleCheckOut_checkin e c st Hc).
  simpl. repeat split. apply lookup_insert_eq.
Qed.

Lemma checkout_unenrolls_witness :
  let r := handleWebhook (mdm_env net_ok)
             (DecodeOk (checkin_event "mdm.CheckOut" "ABC")) enrolled_state in
  fst r = Returned tt /\
  Server.Devices (srv (snd r)) !! "ABC" = Some (Device.mk "ABC" false) /\
  posts (snd r) = [].
Proof.
  exact (checkout_unenrolls (mdm_env net_ok) (checkin_event "mdm.CheckOut" "ABC")
           (CheckinEvent.mk "ABC") enrolled_state (mdm_env_distinct net_ok)
           eq_refl eq_refl).
Defined.

(** C5: an Authenticate, TokenUpdate or CheckOut event without checkin
    payload is answered with HTTP 400; the error is logged, the server
    record with its registry is unchanged and no request is sent. *)
Theorem missing_checkin_is_bad_request (E : Env) (e : Event.t) (st : State) :
  topics_distinct E ->
  In (Event.Topic e) [AuthenticateTopic E; TokenUpdateTopic E; CheckoutTopic E] ->
  Event.CheckinEvent e = None ->
  writer st = ResponseWriter.fresh ->
  let r := handleWebhook E (DecodeOk e) st in
  fst r = Returned tt /\
  writer (snd r) =
    ResponseWriter.mk (Some 400) ("The event has no CheckinEvent" +:+ String "010" EmptyString) /\
  ResponseWriter.StatusCode (writer (snd r)) = 400 /\
  srv (snd r) = srv st /\
  posts (snd r) = posts st /\
  In (logrus_Error "The event has no CheckinEvent") (logs (snd r)).
Proof.
  intros Hd Ht Hc Hw r. subst r.
  assert (exists name,
           handleWebhook E (DecodeOk e) st =
           refused name "The event has no CheckinEvent" e st) as [name ->].
  { simpl in Ht. destruct Ht as [Ht|[Ht|[Ht|[]]]]; symmetry in Ht.
    - rewrite (handleWebhook_Authenticate E e Ht). eexists.
      apply handleAuthenticate_no_checkin, Hc.
    - rewrite (handleWebhook_TokenUpdate E e Hd Ht). eexists.
      apply handleTokenUpdate_no_checkin, Hc.
    - rewrite (handleWebhook_CheckOut E e Hd Ht). eexists.
      apply handleCheckOut_no_checkin, Hc. }
  unfold refused; simpl. rewrite Hw. repeat split.
  apply in_or_app. right. right. left. reflexivity.
Qed.

Lemma missing_checkin_is_bad_request_witness :
  let r := handleWebhook (mdm_env net_ok) (DecodeOk (empty_event "mdm.TokenUpdate"))
             enrolled_state in
  fst r = Returned tt /\
  writer (snd r) =
    ResponseWriter.mk (Some 400) ("The event has no CheckinEvent" +:+ String "010" EmptyString) /\
  ResponseWriter.StatusCode (writer (snd r)) = 400 /\
  srv (snd r) = srv enrolled_state /\
  posts (snd r) = [] /\
  In (logrus_Error "The event has no CheckinEvent") (logs (snd r)).
Proof.
  exact (missing_checkin_is_bad_request (mdm_env net_ok) (empty_event "mdm.TokenUpdate")
           enrolled_state (mdm_env_distinct net_ok)
           (or_intror (or_introl eq_refl)) eq_refl eq_refl).
Defined.

(** C6: an event whose topic is none of the four constants runs no
    handler: the call returns, the only effect is one warning line; server
    record, response and outbound requests are as before. *)
Theorem unknown_topic_only_warns (E : Env) (e : Event.t) (st : State) :
  ~ In (Event.Topic e)
       [AuthenticateTopic E; TokenUpdateTopic E; ConnectTopic E; CheckoutTopic E] ->
  handleWebhook E (DecodeOk e) st =
  (Returned tt,
   mkState (srv st) (writer st)
           (logs st ++ [logrus_Warnf unknown_topic_format [ArgString (Event.Topic e)]])
           (posts st)).
Proof. intros H. rewrite (handleWebhook_unknown E e H). reflexivity. Qed.

Lemma unknown_topic_only_warns_witness :
  handleWebhook (mdm_env net_ok) (DecodeOk (checkin_event "mdm.Enroll" "ABC")) sample_state =
  (Returned tt,
   mkState sample_server ResponseWriter.fresh
           [logrus_Warnf unknown_topic_format [ArgString "mdm.Enroll"]] []).
Proof.
  apply (unknown_topic_only_warns (mdm_env net_ok) (checkin_event "mdm.Enroll" "ABC")
           sample_state).
  simpl. intros H. repeat destruct H as [H|H]; try discriminate H. exact H.
Defined.

(** C7: a Connect event with an acknowledge payload prints its raw
    response, byte for byte, exactly when the response contains
    "InstalledApplicationList"; besides the handler's first log line
    nothing else is logged, the server record is unchanged and nothing is
    sent. *)
Theorem connect_logs_inventory_report (E : Env) (e : Event.t) (a : AcknowledgeEvent.t)
        (st : State) :
  topics_distinct E ->
  Event.Topic e = ConnectTopic E ->
  Event.AcknowledgeEvent e = Some a ->
  let blob := AcknowledgeEvent.RawPayload a in
  let r := handleWebhook E (DecodeOk e) st in
  exists new,
    logs (snd r) = logs st ++ logrus_Infof "handleConnect for event %+v" [ArgEvent e] :: new /\
    (new = [log_Println [ArgString blob]] \/ new = []) /\
    (logged_verbatim blob new <-> occurs_in "InstalledApplicationList" blob) /\
    fst r = Returned tt /\
    srv (snd r) = srv st /\
    writer (snd r) = writer st /\
    posts (snd r) = posts st.
Proof.
  intros Hd Ht Ha blob r. subst r blob.
  rewrite (handleWebhook_Connect E e Hd Ht), (handleConnect_acknowledge e a st Ha).
  simpl.
  pose proof (Contains_spec "InstalledApplicationList" (AcknowledgeEvent.RawPayload a))
    as Hspec.
  destruct (Contains (AcknowledgeEvent.RawPayload a) "InstalledApplicationList").
  - eexists. split; [reflexivity|]. split; [left; reflexivity|].
    split; [split | repeat split].
    + intros _. apply Hspec. reflexivity.
    + intros _. left. reflexivity.
  - exists []. split; [reflexivity|]. split; [right; reflexivity|].
    split; [split | repeat split].
    + intros [].
    + intros H. apply Hspec in H. discriminate H.
Qed.

Lemma connect_logs_inventory_report_witness :
  let blob := "<plist>...InstalledApplicationList...</plist>" in
  let e := ack_event "mdm.Connect" "ABC" blob in
  let r := handleWebhook (mdm_env net_ok) (DecodeOk e) enrolled_state in
  exists new,
    logs (snd r) = logrus_Infof "handleConnect for event %+v" [ArgEvent e] :: new /\
    (new = [log_Println [ArgString blob]] \/ new = []) /\
    (logged_verbatim blob new <-> occurs_in "InstalledApplicationList" blob) /\
    fst r = Returned tt /\
    srv (snd r) = srv enrolled_state /\
    writer (snd r) = ResponseWriter.fresh /\
    posts (snd r) = [].
Proof.
  exact (connect_logs_inventory_report (mdm_env net_ok)
           (ack_event "mdm.Connect" "ABC" "<plist>...InstalledApplicationList...</plist>")
           (AcknowledgeEvent.mk "ABC" "<plist>...InstalledApplicationList...</plist>")
           enrolled_state (mdm_env_distinct net_ok) eq_refl eq_refl).
Defined.

(** C10: an Authenticate, TokenUpdate or CheckOut event with identifier
    [u] in its checkin payload leaves the registry entry of every other
    identifier as it was, present or absent, however the handler ends. *)
Theorem checkin_handlers_frame (E : Env) (e : Event.t) (c : CheckinEvent.t) (st : State)
        (u' : string) :
  topics_distinct E ->
  In (Event.Topic e) [AuthenticateTopic E; TokenUpdateTopic E; CheckoutTopic E] ->
  Event.CheckinEvent e = Some c ->
  u' <> CheckinEvent.UDID c ->
  Server.Devices (srv (snd (handleWebhook E (DecodeOk e) st))) !! u' =
  Server.Devices (srv st) !! u'.
Proof.
  intros Hd _ Hc Hne. rewrite (handleWebhook_Devices E Hd).
  destruct (registration E (DecodeOk e)) as [[u b]|] eqn:Hr; simpl; [|reflexivity].
  apply (registration_checkin E e c u b Hc) in Hr. subst u.
  apply lookup_insert_ne. congruence.
Qed.

Lemma checkin_handlers_frame_witness :
  Server.Devices
    (srv (snd (handleWebhook (mdm_env net_ok)
                 (DecodeOk (checkin_event "mdm.CheckOut" "ABC")) enrolled_state))) !! "XYZ" =
  Some (Device.mk "XYZ" true).
Proof.
  rewrite (checkin_handlers_frame (mdm_env net_ok) (checkin_event "mdm.CheckOut" "ABC")
             (CheckinEvent.mk "ABC") enrolled_state "XYZ" (mdm_env_distinct net_ok)
             (or_intror (or_intror (or_introl eq_refl))) eq_refl).
  - reflexivity.
  - discriminate.
Defined.

(** ** Which identifiers have a record *)

(** C2, as stated: a record would exist as soon as one event referencing
    the identifier was received.  A Connect event references "ABC" and
    leaves the registry empty. *)
Lemma connect_creates_no_record :
  let reqs := [DecodeOk (ack_event "mdm.Connect" "ABC" "<plist/>")] in
  ~ (is_Some (Server.Devices (srv (snd (serve (mdm_env net_ok) reqs sample_state))) !! "ABC")
     <-> Exists (fun r => references "ABC" r = true)
                (served (mdm_env net_ok) reqs sample_state)).
Proof.
  intros reqs [_ H].
  assert (Hex : Exists (fun r => references "ABC" r = true)
                       (served (mdm_env net_ok) reqs sample_state)).
  { apply Exists_cons_hd. reflexivity. }
  apply H in Hex. vm_compute in Hex. destruct Hex as [d Hd]. discriminate Hd.
Qed.

(** C2, amended: on a server started with an empty registry, an identifier
    has a record exactly when one of the requests handled so far was an
    Authenticate, TokenUpdate or CheckOut event with that identifier in
    its checkin payload; and no request, of whatever kind, removes a
    record. *)
Theorem registry_membership (E : Env) (reqs : list Decoded) (st : State) (u : string) :
  topics_distinct E ->
  Server.Devices (srv st) = ∅ ->
  (is_Some (Server.Devices (srv (snd (serve E reqs st))) !! u) <->
   Exists (fun r => registers E u r = true) (served E reqs st)) /\
  (forall (r : Decoded) (st' : State),
     is_Some (Server.Devices (srv st') !! u) ->
     is_Some (Server.Devices (srv (snd (handleWebhook E r st'))) !! u)).
Proof.
  intros Hd Hempty. split.
  - rewrite (serve_registry E Hd), Hempty, lookup_empty. split.
    + intros [[d H]|H]; [discriminate H | exact H].
    + auto.
  - intros r st' H. apply (handleWebhook_step E Hd). left. exact H.
Qed.

Lemma registry_membership_witness :
  let reqs := [DecodeOk (ack_event "mdm.Connect" "XYZ" "<plist/>");
               DecodeOk (checkin_event "mdm.Authenticate" "ABC");
               DecodeOk (checkin_event "mdm.TokenUpdate" "ABC")] in
  (is_Some (Server.Devices (srv (snd (serve (mdm_env net_ok) reqs sample_state))) !! "ABC") <->
   Exists (fun r => registers (mdm_env net_ok) "ABC" r = true)
          (served (mdm_env net_ok) reqs sample_state)) /\
  (forall (r : Decoded) (st' : State),
     is_Some (Server.Devices (srv st') !! "ABC") ->
     is_Some (Server.Devices (srv (snd (handleWebhook (mdm_env net_ok) r st'))) !! "ABC")).
Proof.
  intros reqs.
  exact (registry_membership (mdm_env net_ok) reqs sample_state "ABC"
           (mdm_env_distinct net_ok) eq_refl).
Defined.

(** ** Scenarios *)

(** Authenticate, then TokenUpdate, then CheckOut for "ABC": the record is
    unenrolled, enrolled, unenrolled again, and the one request sent is
    the inventory command for "ABC". *)
Example scenario_lifecycle :
  let E := mdm_env net_ok in
  let auth := DecodeOk (checkin_event "mdm.Authenticate" "ABC") in
  let token := DecodeOk (checkin_event "mdm.TokenUpdate" "ABC") in
  let out := DecodeOk (checkin_event "mdm.CheckOut" "ABC") in
  Server.Devices (srv (snd (serve E [auth] sample_state))) !! "ABC"
    = Some (Device.mk "ABC" false) /\
  Server.Devices (srv (snd (serve E [auth; token] sample_state))) !! "ABC"
    = Some (Device.mk "ABC" true) /\
  Server.Devices (srv (snd (serve E [auth; token; out] sample_state))) !! "ABC"
    = Some (Device.mk "ABC" false) /\
  posts (snd (serve E [auth; token; out] sample_state)) =
    [Request.mk "POST" "https://mdm.example.com/v1/commands" (Some ("micromdm", "secret"))
       [("udid", "ABC"); ("request_type", "InstalledApplicationList")]].
Proof. repeat split; vm_compute; reflexivity. Qed.

(** Every TokenUpdate sends the command again. *)
Example scenario_two_token_updates :
  let E := mdm_env net_ok in
  let token := DecodeOk (checkin_event "mdm.TokenUpdate" "ABC") in
  length (posts (snd (serve E [token; token] sample_state))) = 2.
Proof. vm_compute; reflexivity. Qed.

(** When the management server cannot be reached the first TokenUpdate
    ends the process; the second request is never handled. *)
Example scenario_server_down :
  let E := mdm_env net_down in
  let token := DecodeOk (checkin_event "mdm.TokenUpdate" "ABC") in
  fst (serve E [token; token] sample_state) = Exited 1 /\
  served E [token; token] sample_state = [token].
Proof. split; vm_compute; reflexivity. Qed.

(** A body that is not JSON is answered with 400 and changes nothing else. *)
Example scenario_malformed_body :
  handleWebhook (mdm_env net_ok) (DecodeError "unexpected EOF") sample_state =
  (Returned tt,
   mkState sample_server
           (ResponseWriter.mk (Some 400) ("decode JSON: unexpected EOF" +:+ String "010" EmptyString))
           [logrus_Errorf "decode JSON: %v" [ArgError "unexpected EOF"]] []).
Proof. reflexivity. Qed.

(** * Beyond the contracts: how a request can end *)

(** The dispatcher by cases: the URL is refused, the network answers, or
    the network fails. *)
Lemma sendCommandToDevice_cases (E : Env) (d : Device.t) (rt : string) (st : State) :
  sendCommandToDevice E d rt st =
  if url_Parse E (Server.MDMServerURL (srv st) +:+ "/v1/commands")
  then match client_Do E (length (posts st))
               (command_request (srv st) (Device.UDID d) rt) with
       | DoResponse _ =>
           (Returned tt,
            mkState (srv st) (writer st) (logs st)
                    (posts st ++ [command_request (srv st) (Device.UDID d) rt]))
       | DoError err =>
           (Exited 1,
            mkState (srv st) (writer st)
                    (logs st ++ [logrus_Errorf "send command to device: %v" [ArgError err];
                                 log_Fatal err])
                    (posts st ++ [command_request (srv st) (Device.UDID d) rt]))
       end
  else (Panicked "invalid memory address or nil pointer dereference", st).
Proof.
  destruct (url_Parse E (Server.MDMServerURL (srv st) +:+ "/v1/commands")) eqn:Hp.
  - destruct (client_Do E (length (posts st))
                (command_request (srv st) (Device.UDID d) rt)) eqn:Hdo.
    + exact (sendCommandToDevice_response E d rt st _ Hp Hdo).
    + exact (sendCommandToDevice_error E d rt st _ Hp Hdo).
  - exact (sendCommandToDevice_unparsable E d rt st Hp).
Qed.

(** A TokenUpdate event with checkin payload is the one request that
    reaches the dispatcher. *)
Lemma handleWebhook_token_update (E : Env) (r : Decoded) (st : State) (u : string) :
  registration E r = Some (u, true) ->
  exists e,
    r = DecodeOk e /\
    handleWebhook E r st =
    sendCommandToDevice E (Device.mk u true) "InstalledApplicationList"
      (mkState (Server.set_Devices
                  (<[u := Device.mk u true]> (Server.Devices (srv st))) (srv st))
               (writer st)
               (logs st ++ [logrus_Infof "handleTokenUpdate for event %+v" [ArgEvent e]])
               (posts st)).
Proof.
  destruct r as [err|e]; [discriminate|].
  unfold registration, handleWebhook.
  destruct (Event.CheckinEvent e) as [c|] eqn:Hc; [|discriminate].
  destruct (String.eqb (Event.Topic e) (AuthenticateTopic E)); [discriminate|].
  destruct (String.eqb (Event.Topic e) (TokenUpdateTopic E)).
  - intros H. injection H as <-. exists e. split; [reflexivity|].
    apply handleTokenUpdate_checkin, Hc.
  - destruct (String.eqb (Event.Topic e) (CheckoutTopic E)); discriminate.
Qed.

(** Every other request returns, sends nothing, leaves URL and key alone
    and logs at least one line. *)
Lemma handleWebhook_quiet (E : Env) (r : Decoded) (st : State) :
  token_update_id E r = None ->
  fst (handleWebhook E r st) = Returned tt /\
  posts (snd (handleWebhook E r st)) = posts st /\
  Server.MDMServerURL (srv (snd (handleWebhook E r st))) = Server.MDMServerURL (srv st) /\
  Server.MDMAPIKey (srv (snd (handleWebhook E r st))) = Server.MDMAPIKey (srv st) /\
  exists new, new <> [] /\ logs (snd (handleWebhook E r st)) = logs st ++ new.
Proof.
  unfold token_update_id.
  destruct r as [err|e].
  { intros _. repeat split. eexists. split; [|reflexivity]. discriminate. }
  unfold registration, handleWebhook.
  destruct (String.eqb (Event.Topic e) (AuthenticateTopic E)).
  { intros _. destruct (Event.CheckinEvent e) as [c|] eqn:Hc.
    - rewrite (handleAuthenticate_checkin e c st Hc). repeat split.
      eexists. split; [|reflexivity]. discriminate.
    - rewrite (handleAuthenticate_no_checkin e st Hc). repeat split.
      eexists. split; [|reflexivity]. discriminate. }
  destruct (String.eqb (Event.Topic e) (TokenUpdateTopic E)).
  { destruct (Event.CheckinEvent e) as [c|] eqn:Hc; [discriminate|]. intros _.
    rewrite (handleTokenUpdate_no_checkin E e st Hc). repeat split.
    eexists. split; [|reflexivity]. discriminate. }
  intros _.
  destruct (String.eqb (Event.Topic e) (ConnectTopic E)).
  { destruct (Event.AcknowledgeEvent e) as [a|] eqn:Ha.
    - rewrite (handleConnect_acknowledge e a st Ha). repeat split.
      eexists. split; [|reflexivity]. discriminate.
    - rewrite (handleConnect_no_acknowledge e st Ha). repeat split.
      eexists. split; [|reflexivity]. discriminate. }
  destruct (String.eqb (Event.Topic e) (CheckoutTopic E)).
  { destruct (Event.CheckinEvent e) as [c|] eqn:Hc.
    - rewrite (handleCheckOut_checkin e c st Hc). repeat split.
      eexists. split; [|reflexivity]. discriminate.
    - rewrite (handleCheckOut_no_checkin e st Hc). repeat split.
      eexists. split; [|reflexivity]. discriminate. }
  repeat split. eexists. split; [|reflexivity]. discriminate.
Qed.

Lemma token_update_id_Some (E : Env) (r : Decoded) (u : string) :
  token_update_id E r = Some u <-> registration E r = Some (u, true).
Proof.
  unfold token_update_id.
  destruct (registration E r) as [[u' [|]]|]; split; intros H;
    try discriminate H; inversion H; reflexivity.
Qed.

(** ** Refusals *)

(** X1: a request whose body does not decode is answered with HTTP 400
    and the text "decode JSON: " followed by the decoder's error; the error
    is logged once, the server record is untouched and nothing is sent. *)
Theorem malformed_body_is_bad_request (E : Env) (err : string) (st : State) :
  writer st = ResponseWriter.fresh ->
  let r := handleWebhook E (DecodeError err) st in
  fst r = Returned tt /\
  ResponseWriter.StatusCode (writer (snd r)) = 400 /\
  ResponseWriter.body (writer (snd r)) =
    ("decode JSON: " +:+ err) +:+ String "010" EmptyString /\
  srv (snd r) = srv st /\
  posts (snd r) = posts st /\
  logs (snd r) = logs st ++ [logrus_Errorf "decode JSON: %v" [ArgError err]].
Proof.
  intros Hw r. subst r. unfold handleWebhook, bind, log, http_Error. simpl.
  rewrite Hw. repeat split.
Qed.

Lemma malformed_body_is_bad_request_witness :
  let r := handleWebhook (mdm_env net_ok) (DecodeError "unexpected EOF") enrolled_state in
  fst r = Returned tt /\
  ResponseWriter.StatusCode (writer (snd r)) = 400 /\
  ResponseWriter.body (writer (snd r)) =
    ("decode JSON: " +:+ "unexpected EOF") +:+ String "010" EmptyString /\
  srv (snd r) = srv enrolled_state /\
  posts (snd r) = [] /\
  logs (snd r) = [logrus_Errorf "decode JSON: %v" [ArgError "unexpected EOF"]].
Proof.
  exact (malformed_body_is_bad_request (mdm_env net_ok) "unexpected EOF" enrolled_state
           eq_refl).
Defined.

(** X2: a Connect event without acknowledge payload is answered with HTTP
    400 "The event has no AcknowledgeEvent", whether or not it carries a
    checkin payload; the error is logged, the server record is untouched
    and nothing is sent. *)
Theorem connect_without_acknowledge (E : Env) (e : Event.t) (st : State) :
  topics_distinct E ->
  Event.Topic e = ConnectTopic E ->
  Event.AcknowledgeEvent e = None ->
  writer st = ResponseWriter.fresh ->
  let r := handleWebhook E (DecodeOk e) st in
  fst r = Returned tt /\
  writer (snd r) =
    ResponseWriter.mk (Some 400)
      ("The event has no AcknowledgeEvent" +:+ String "010" EmptyString) /\
  srv (snd r) = srv st /\
  posts (snd r) = posts st /\
  logs (snd r) =
    logs st ++ [logrus_Infof "handleConnect for event %+v" [ArgEvent e];
                logrus_Error "The event has no AcknowledgeEvent"].
Proof.
  intros Hd Ht Ha Hw r. subst r.
  rewrite (handleWebhook_Connect E e Hd Ht), (handleConnect_no_acknowledge e st Ha).
  unfold refused. simpl. rewrite Hw. repeat split.
Qed.

Lemma connect_without_acknowledge_witness :
  let e := checkin_event "mdm.Connect" "ABC" in
  let r := handleWebhook (mdm_env net_ok) (DecodeOk e) enrolled_state in
  fst r = Returned tt /\
  writer (snd r) =
    ResponseWriter.mk (Some 400)
      ("The event has no AcknowledgeEvent" +:+ String "010" EmptyString) /\
  srv (snd r) = srv enrolled_state /\
  posts (snd r) = [] /\
  logs (snd r) =
    [logrus_Infof "handleConnect for event %+v" [ArgEvent e];
     logrus_Error "The event has no AcknowledgeEvent"].
Proof.
  exact (connect_without_acknowledge (mdm_env net_ok) (checkin_event "mdm.Connect" "ABC")
           enrolled_state (mdm_env_distinct net_ok) eq_refl eq_refl eq_refl).
Defined.

(** ** Re-enrollment *)

(** X3: an Authenticate event for an identifier that already has a record
    resets the record to enrollment false, whatever it was, reports a
    re-enrolling device, writes no response and sends nothing. *)
Theorem authenticate_reenrolls (E : Env) (e : Event.t) (c : CheckinEvent.t) (d : Device.t)
        (st : State) :
  Event.Topic e = AuthenticateTopic E ->
  Event.CheckinEvent e = Some c ->
  Server.Devices (srv st) !! CheckinEvent.UDID c = Some d ->
  let r := handleWebhook E (DecodeOk e) st in
  fst r = Returned tt /\
  Server.Devices (srv (snd r)) !! CheckinEvent.UDID c =
    Some (Device.mk (CheckinEvent.UDID c) false) /\
  logs (snd r) =
    logs st ++ [logrus_Infof "handleAuthenticate for event %+v" [ArgEvent e];
                log_Println [ArgString "re-enrolling device";
                             ArgString (CheckinEvent.UDID c)]] /\
  writer (snd r) = writer st /\
  posts (snd r) = posts st.
Proof.
  intros Ht Hc Hold r. subst r.
  rewrite (handleWebhook_Authenticate E e Ht), (handleAuthenticate_checkin e c st Hc).
  simpl. rewrite Hold. repeat split. apply lookup_insert_eq.
Qed.

Lemma authenticate_reenrolls_witness :
  let e := checkin_event "mdm.Authenticate" "ABC" in
  let r := handleWebhook (mdm_env net_ok) (DecodeOk e) enrolled_state in
  fst r = Returned tt /\
  Server.Devices (srv (snd r)) !! "ABC" = Some (Device.mk "ABC" false) /\
  logs (snd r) =
    [logrus_Infof "handleAuthenticate for event %+v" [ArgEvent e];
     log_Println [ArgString "re-enrolling device"; ArgString "ABC"]] /\
  writer (snd r) = ResponseWriter.fresh /\
  posts (snd r) = [].
Proof.
  exact (authenticate_reenrolls (mdm_env net_ok) (checkin_event "mdm.Authenticate" "ABC")
           (CheckinEvent.mk "ABC") (Device.mk "ABC" true) enrolled_state
           eq_refl eq_refl eq_refl).
Defined.

(** ** The command that goes out *)



(** X5: when the command URL parses, a TokenUpdate event with a checkin
    payload enrols its identifier and sends exactly one request, the
    InstalledApplicationList command for that identifier; it writes no
    response, and it returns exactly when the network answers. *)
Theorem token_update_sends_inventory_command (E : Env) (e : Event.t) (c : CheckinEvent.t)
        (st : State) :
  topics_distinct E ->
  Event.Topic e = TokenUpdateTopic E ->
  Event.CheckinEvent e = Some c ->
  url_Parse E (Server.MDMServerURL (srv st) +:+ "/v1/commands") = true ->
  let r := handleWebhook E (DecodeOk e) st in
  let cmd := Request.mk "POST" (Server.MDMServerURL (srv st) +:+ "/v1/commands")
               (Some ("micromdm", Server.MDMAPIKey (srv st)))
               [("udid", CheckinEvent.UDID c);
                ("request_type", "InstalledApplicationList")] in
  Server.Devices (srv (snd r)) !! CheckinEvent.UDID c =
    Some (Device.mk (CheckinEvent.UDID c) true) /\
  posts (snd r) = posts st ++ [cmd] /\
  writer (snd r) = writer st /\
  (fst r = Returned tt <-> exists code, client_Do E (length (posts st)) cmd = DoResponse code).
Proof.
  intros Hd Ht Hc Hp r cmd. subst r cmd.
  rewrite (handleWebhook_TokenUpdate E e Hd Ht), (handleTokenUpdate_checkin E e c st Hc).
  rewrite sendCommandToDevice_cases. simpl. rewrite Hp.
  unfold command_request. simpl.
  destruct (client_Do E (length (posts st)) _) as [code|err]; simpl.
  - split; [apply lookup_insert_eq|]. repeat split. exists code. reflexivity.
  - split; [apply lookup_insert_eq|]. repeat split.
    + discriminate.
    + intros [code H]. discriminate H.
Qed.

Lemma token_update_sends_inventory_command_witness :
  let r := handleWebhook (mdm_env net_ok)
             (DecodeOk (checkin_event "mdm.TokenUpdate" "ABC")) sample_state in
  let cmd := Request.mk "POST" "https://mdm.example.com/v1/commands"
               (Some ("micromdm", "secret"))
               [("udid", "ABC"); ("request_type", "InstalledApplicationList")] in
  Server.Devices (srv (snd r)) !! "ABC" = Some (Device.mk "ABC" true) /\
  posts (snd r) = [cmd] /\
  writer (snd r) = ResponseWriter.fresh /\
  (fst r = Returned tt <-> exists code, net_ok 0 cmd = DoResponse code).
Proof.
  exact (token_update_sends_inventory_command (mdm_env net_ok)
           (checkin_event "mdm.TokenUpdate" "ABC") (CheckinEvent.mk "ABC") sample_state
           (mdm_env_distinct net_ok) eq_refl eq_refl eq_refl).
Defined.

(** ** What a request can and cannot do *)

Lemma handleWebhook_config (E : Env) (r : Decoded) (st : State) :
  Server.MDMServerURL (srv (snd (handleWebhook E r st))) = Server.MDMServerURL (srv st) /\
  Server.MDMAPIKey (srv (snd (handleWebhook E r st))) = Server.MDMAPIKey (srv st).
Proof.
  destruct (token_update_id E r) as [u|] eqn:Hid.
  - apply token_update_id_Some in Hid.
    destruct (handleWebhook_token_update E r st u Hid) as (e & _ & ->).
    rewrite (proj1 (sendCommandToDevice_srv E _ _ _)). split; reflexivity.
  - destruct (handleWebhook_quiet E r st Hid) as (_ & _ & Hurl & Hkey & _).
    split; assumption.
Qed.

Lemma handleWebhook_posts (E : Env) (r : Decoded) (st : State) :
  posts (snd (handleWebhook E r st)) =
  posts st ++
  match token_update_id E r with
  | Some u =>
      if url_Parse E (Server.MDMServerURL (srv st) +:+ "/v1/commands")
      then [command_request (srv st) u "InstalledApplicationList"]
      else []
  | None => []
  end.
Proof.
  destruct (token_update_id E r) as [u|] eqn:Hid.
  - apply token_update_id_Some in Hid.
    destruct (handleWebhook_token_update E r st u Hid) as (e & _ & ->).
    rewrite sendCommandToDevice_cases. simpl.
    destruct (url_Parse E (Server.MDMServerURL (srv st) +:+ "/v1/commands")).
    + destruct (client_Do E _ _); reflexivity.
    + simpl. rewrite app_nil_r. reflexivity.
  - destruct (handleWebhook_quiet E r st Hid) as (_ & Hposts & _).
    rewrite Hposts, app_nil_r. reflexivity.
Qed.

(** X6: a webhook request sends something only when it is a TokenUpdate
    event with checkin payload, and then at most one request: the
    InstalledApplicationList command for the event's identifier if the
    command URL parses, nothing if it does not. *)
Theorem webhook_sends_only_for_token_update (E : Env) (r : Decoded) (st : State) :
  posts (snd (handleWebhook E r st)) =
  posts st ++
  match token_update_id E r with
  | Some u =>
      if url_Parse E (Server.MDMServerURL (srv st) +:+ "/v1/commands")
      then [command_request (srv st) u "InstalledApplicationList"]
      else []
  | None => []
  end.
Proof. exact (handleWebhook_posts E r st). Qed.

(** X7: handling a webhook request ends the process, always with status 1,
    exactly when the request is a TokenUpdate event with checkin payload,
    the command URL parses and [client.Do] returns an error for the
    command; no other request can end the process. *)
Theorem webhook_exits_iff_dispatch_fails (E : Env) (r : Decoded) (st : State) :
  ((exists code, fst (handleWebhook E r st) = Exited code) <->
   exists u err,
     token_update_id E r = Some u /\
     url_Parse E (Server.MDMServerURL (srv st) +:+ "/v1/commands") = true /\
     client_Do E (length (posts st))
       (command_request (srv st) u "InstalledApplicationList") = DoError err) /\
  (forall code, fst (handleWebhook E r st) = Exited code -> code = 1).
Proof.
  destruct (token_update_id E r) as [u|] eqn:Hid.
  - apply token_update_id_Some in Hid.
    destruct (handleWebhook_token_update E r st u Hid) as (e & _ & ->).
    rewrite sendCommandToDevice_cases. simpl.
    change (command_request _ u "InstalledApplicationList")
      with (command_request (srv st) u "InstalledApplicationList").
    destruct (url_Parse E (Server.MDMServerURL (srv st) +:+ "/v1/commands")).
    + destruct (client_Do E (length (posts st))
                  (command_request (srv st) u "InstalledApplicationList"))
        as [code|err] eqn:Hdo; simpl.
      * split; [split|discriminate].
        -- intros [c H]. discriminate H.
        -- intros (u' & err & Heq & _ & H). injection Heq as <-.
           rewrite Hdo in H. discriminate H.
      * split; [split|].
        -- intros _. exists u, err. split; [reflexivity|]. split; [reflexivity|].
           exact Hdo.
        -- intros _. exists 1. reflexivity.
        -- intros c H. injection H as <-. reflexivity.
    + simpl. split; [split|discriminate].
      * intros [c H]. discriminate H.
      * intros (u' & err & _ & H & _). discriminate H.
  - destruct (handleWebhook_quiet E r st Hid) as (Hret & _).
    rewrite Hret. split; [split|discriminate].
    + intros [c H]. discriminate H.
    + intros (u' & err & H & _). discriminate H.
Qed.

(** X8: handling a webhook request panics exactly when the request is a
    TokenUpdate event with checkin payload and the command URL does not
    parse; the identifier is enrolled all the same. *)
Theorem webhook_panics_iff_url_unparsable (E : Env) (r : Decoded) (st : State) :
  ((exists msg, fst (handleWebhook E r st) = Panicked msg) <->
   exists u,
     token_update_id E r = Some u /\
     url_Parse E (Server.MDMServerURL (srv st) +:+ "/v1/commands") = false) /\
  (forall u, token_update_id E r = Some u ->
     Server.Devices (srv (snd (handleWebhook E r st))) !! u = Some (Device.mk u true)).
Proof.
  destruct (token_update_id E r) as [u|] eqn:Hid.
  - apply token_update_id_Some in Hid.
    destruct (handleWebhook_token_update E r st u Hid) as (e & _ & ->).
    split.
    + rewrite sendCommandToDevice_cases. simpl.
      destruct (url_Parse E (Server.MDMServerURL (srv st) +:+ "/v1/commands")).
      * destruct (client_Do E _ _); simpl; split.
        -- intros [m H]. discriminate H.
        -- intros (u' & _ & H). discriminate H.
        -- intros [m H]. discriminate H.
        -- intros (u' & _ & H). discriminate H.
      * simpl. split.
        -- intros _. exists u. split; reflexivity.
        -- intros _. eexists. reflexivity.
    + intros u' H. injection H as <-.
      rewrite (proj1 (sendCommandToDevice_srv E _ _ _)). simpl.
      apply lookup_insert_eq.
  - destruct (handleWebhook_quiet E r st Hid) as (Hret & _).
    rewrite Hret. split.
    + split.
      * intros [m H]. discriminate H.
      * intros (u' & H & _). discriminate H.
    + intros u' H. discriminate H.
Qed.

(** X9: every webhook request, whatever it is and however it ends, adds
    at least one line to the log and removes none. *)
Theorem webhook_always_logs (E : Env) (r : Decoded) (st : State) :
  exists new, new <> [] /\ logs (snd (handleWebhook E r st)) = logs st ++ new.
Proof.
  destruct (token_update_id E r) as [u|] eqn:Hid.
  - apply token_update_id_Some in Hid.
    destruct (handleWebhook_token_update E r st u Hid) as (e & _ & ->).
    rewrite sendCommandToDevice_cases. simpl.
    destruct (url_Parse E (Server.MDMServerURL (srv st) +:+ "/v1/commands")).
    + destruct (client_Do E _ _); simpl.
      * eexists. split; [|reflexivity]. discriminate.
      * rewrite <- app_assoc. eexists. split; [|reflexivity]. discriminate.
    + simpl. eexists. split; [|reflexivity]. discriminate.
  - destruct (handleWebhook_quiet E r st Hid) as (_ & _ & _ & _ & H). exact H.
Qed.

(** X10: an event that writes to the registry (Authenticate, TokenUpdate
    or CheckOut with checkin payload) writes nothing to the response, so
    the client is not told anything beyond the default status. *)
Theorem registering_event_writes_no_response (E : Env) (r : Decoded) (st : State)
        (u : string) (b : bool) :
  topics_distinct E ->
  registration E r = Some (u, b) ->
  writer (snd (handleWebhook E r st)) = writer st.
Proof.
  intros Hd Hreg. destruct b.
  - destruct (handleWebhook_token_update E r st u Hreg) as (e & _ & ->).
    rewrite (proj2 (sendCommandToDevice_srv E _ _ _)). reflexivity.
  - destruct r as [err|e]; [discriminate|].
    unfold registration in Hreg.
    destruct (Event.CheckinEvent e) as [c|] eqn:Hc; [|discriminate].
    destruct (String.eqb_spec (Event.Topic e) (AuthenticateTopic E)) as [Ha|_].
    { rewrite (handleWebhook_Authenticate E e Ha), (handleAuthenticate_checkin e c st Hc).
      reflexivity. }
    destruct (String.eqb_spec (Event.Topic e) (TokenUpdateTopic E)); [discriminate|].
    destruct (String.eqb_spec (Event.Topic e) (CheckoutTopic E)) as [Ho|_]; [|discriminate].
    rewrite (handleWebhook_CheckOut E e Hd Ho), (handleCheckOut_checkin e c st Hc).
    reflexivity.
Qed.

Lemma registering_event_writes_no_response_witness :
  writer (snd (handleWebhook (mdm_env net_down)
                 (DecodeOk (checkin_event "mdm.TokenUpdate" "ABC")) sample_state)) =
  ResponseWriter.fresh.
Proof.
  exact (registering_event_writes_no_response (mdm_env net_down)
           (DecodeOk (checkin_event "mdm.TokenUpdate" "ABC")) sample_state "ABC" true
           (mdm_env_distinct net_down) eq_refl).
Defined.

(** ** Runs *)

Lemma registry_step_lookup_eq (w : option (string * bool)) (m : gmap string Device.t)
      (u : string) :
  registry_step w m !! u =
  match w with
  | Some (u', b) => if String.eqb u' u then Some (Device.mk u b) else m !! u
  | None => m !! u
  end.
Proof.
  destruct w as [[u' b]|]; simpl; [|reflexivity].
  destruct (String.eqb_spec u' u) as [->|Hne].
  - apply lookup_insert_eq.
  - apply lookup_insert_ne, Hne.
Qed.

(** X11: URL and API key of the server never change: after any run they
    are what they were at the start. *)
Theorem server_config_is_constant (E : Env) (reqs : list Decoded) (st : State) :
  Server.MDMServerURL (srv (snd (serve E reqs st))) = Server.MDMServerURL (srv st) /\
  Server.MDMAPIKey (srv (snd (serve E reqs st))) = Server.MDMAPIKey (srv st).
Proof.
  revert st. induction reqs as [|r rest IH]; intros st; simpl; [split; reflexivity|].
  pose proof (handleWebhook_config E r (new_request st)) as [Hurl Hkey].
  destruct (handleWebhook E r (new_request st)) as [[a|code|msg] st']; simpl in *.
  - destruct (IH st') as [H1 H2]. split; congruence.
  - split; assumption.
  - destruct (IH st') as [H1 H2]. split; congruence.
Qed.

(** X12: after a run, the record of an identifier carries the enrollment
    flag of the latest handled event that registers it: true after a
    TokenUpdate, false after an Authenticate or a CheckOut; an identifier
    no handled event registers keeps the entry it had. *)
Theorem registry_last_writer_wins (E : Env) (reqs : list Decoded) (st : State) (u : string) :
  topics_distinct E ->
  Server.Devices (srv (snd (serve E reqs st))) !! u =
  match last_registration E u (served E reqs st) with
  | Some b => Some (Device.mk u b)
  | None => Server.Devices (srv st) !! u
  end.
Proof.
  intros Hd. revert st. induction reqs as [|r rest IH]; intros st; simpl; [reflexivity|].
  pose proof (handleWebhook_Devices E Hd r (new_request st)) as Hdev.
  destruct (handleWebhook E r (new_request st)) as [[a|code|msg] st']; simpl in *.
  - rewrite IH. destruct (last_registration E u (served E rest st')); [reflexivity|].
    rewrite Hdev, registry_step_lookup_eq.
    destruct (registration E r) as [[u' b]|]; [|reflexivity].
    destruct (String.eqb u' u); reflexivity.
  - rewrite Hdev, registry_step_lookup_eq.
    destruct (registration E r) as [[u' b]|]; [|reflexivity].
    destruct (String.eqb u' u); reflexivity.
  - rewrite IH. destruct (last_registration E u (served E rest st')); [reflexivity|].
    rewrite Hdev, registry_step_lookup_eq.
    destruct (registration E r) as [[u' b]|]; [|reflexivity].
    destruct (String.eqb u' u); reflexivity.
Qed.

Lemma registry_last_writer_wins_witness :
  let reqs := [DecodeOk (checkin_event "mdm.TokenUpdate" "ABC");
               DecodeOk (checkin_event "mdm.CheckOut" "XYZ");
               DecodeOk (ack_event "mdm.Connect" "ABC" "<plist/>")] in
  Server.Devices (srv (snd (serve (mdm_env net_ok) reqs sample_state))) !! "ABC" =
  match last_registration (mdm_env net_ok) "ABC" (served (mdm_env net_ok) reqs sample_state) with
  | Some b => Some (Device.mk "ABC" b)
  | None => Server.Devices (srv sample_state) !! "ABC"
  end.
Proof.
  intros reqs.
  exact (registry_last_writer_wins (mdm_env net_ok) reqs sample_state "ABC"
           (mdm_env_distinct net_ok)).
Defined.

Lemma registry_step_keyed (w : option (string * bool)) (m : gmap string Device.t) :
  keyed_by_UDID m -> keyed_by_UDID (registry_step w m).
Proof.
  unfold keyed_by_UDID. intros H. destruct w as [[u b]|]; simpl; [|exact H].
  apply map_Forall_insert_2; [reflexivity | exact H].
Qed.

(** X13: if every record of the registry is stored under its own UDID,
    the same holds after any run: a lookup by identifier never returns
    another device's record. *)
Theorem registry_keyed_by_UDID (E : Env) (reqs : list Decoded) (st : State) :
  topics_distinct E ->
  keyed_by_UDID (Server.Devices (srv st)) ->
  keyed_by_UDID (Server.Devices (srv (snd (serve E reqs st)))).
Proof.
  intros Hd. revert st. induction reqs as [|r rest IH]; intros st Hk; simpl; [exact Hk|].
  pose proof (handleWebhook_Devices E Hd r (new_request st)) as Hdev.
  pose proof (registry_step_keyed (registration E r) _ Hk) as Hk'.
  destruct (handleWebhook E r (new_request st)) as [[a|code|msg] st']; simpl in *;
    rewrite <- Hdev in Hk'.
  - apply IH, Hk'.
  - exact Hk'.
  - apply IH, Hk'.
Qed.

Lemma registry_keyed_by_UDID_witness :
  keyed_by_UDID
    (Server.Devices
       (srv (snd (serve (mdm_env net_ok)
                    [DecodeOk (checkin_event "mdm.TokenUpdate" "ABC")] sample_state)))).
Proof.
  apply (registry_keyed_by_UDID (mdm_env net_ok)
           [DecodeOk (checkin_event "mdm.TokenUpdate" "ABC")] sample_state
           (mdm_env_distinct net_ok)).
  unfold keyed_by_UDID. simpl. apply map_Forall_empty.
Defined.

Lemma handleWebhook_returns (E : Env) (r : Decoded) (st : State) :
  url_Parse E (Server.MDMServerURL (srv st) +:+ "/v1/commands") = true ->
  (forall n req, exists code, client_Do E n req = DoResponse code) ->
  fst (handleWebhook E r st) = Returned tt.
Proof.
  intros Hp Hnet. destruct (token_update_id E r) as [u|] eqn:Hid.
  - apply token_update_id_Some in Hid.
    destruct (handleWebhook_token_update E r st u Hid) as (e & _ & ->).
    rewrite sendCommandToDevice_cases. simpl. rewrite Hp.
    destruct (Hnet (length (posts st))
                (command_request (srv st) u "InstalledApplicationList")) as [code Hc].
    unfold command_request in *. simpl. rewrite Hc. reflexivity.
  - exact (proj1 (handleWebhook_quiet E r st Hid)).
Qed.

Lemma command_request_config (s s' : Server.t) (u rt : string) :
  Server.MDMServerURL s' = Server.MDMServerURL s ->
  Server.MDMAPIKey s' = Server.MDMAPIKey s ->
  command_request s' u rt = command_request s u rt.
Proof. unfold command_request. intros -> ->. reflexivity. Qed.

Lemma inventory_commands_config (E : Env) (s s' : Server.t) (reqs : list Decoded) :
  Server.MDMServerURL s' = Server.MDMServerURL s ->
  Server.MDMAPIKey s' = Server.MDMAPIKey s ->
  inventory_commands E s' reqs = inventory_commands E s reqs.
Proof.
  intros Hurl Hkey. unfold inventory_commands.
  induction reqs as [|r rest IH]; [reflexivity|].
  change (omap ?f (r :: rest)) with
    (match f r with Some y => y :: omap f rest | None => omap f rest end).
  rewrite IH. destruct (token_update_id E r) as [u|]; simpl; [|reflexivity].
  rewrite (command_request_config s s' u _ Hurl Hkey). reflexivity.
Qed.

(** X14: while the command URL parses and the network answers every
    request, a run handles all its requests without ending the process,
    and what it sends is exactly one InstalledApplicationList command per
    TokenUpdate event with checkin payload, in the order of the events,
    repeated events included. *)
Theorem healthy_run_sends_one_command_per_token_update
        (E : Env) (reqs : list Decoded) (st : State) :
  url_Parse E (Server.MDMServerURL (srv st) +:+ "/v1/commands") = true ->
  (forall n req, exists code, client_Do E n req = DoResponse code) ->
  fst (serve E reqs st) = Returned tt /\
  served E reqs st = reqs /\
  posts (snd (serve E reqs st)) = posts st ++ inventory_commands E (srv st) reqs.
Proof.
  intros Hp Hnet. revert st Hp.
  induction reqs as [|r rest IH]; intros st Hp; simpl.
  { rewrite app_nil_r. repeat split. }
  pose proof (handleWebhook_returns E r (new_request st) Hp Hnet) as Hret.
  pose proof (handleWebhook_posts E r (new_request st)) as Hposts.
  pose proof (handleWebhook_config E r (new_request st)) as [Hurl Hkey].
  destruct (handleWebhook E r (new_request st)) as [[a|code|msg] st'];
    simpl in *; try discriminate Hret.
  rewrite Hp in Hposts.
  assert (Hp' : url_Parse E (Server.MDMServerURL (srv st') +:+ "/v1/commands") = true)
    by (rewrite Hurl; exact Hp).
  destruct (IH st' Hp') as (H1 & H2 & H3).
  split; [exact H1|]. split; [rewrite H2; reflexivity|].
  rewrite H3, Hposts, (inventory_commands_config E (srv st) (srv st') rest Hurl Hkey).
  unfold inventory_commands at 2. simpl.
  destruct (token_update_id E r) as [u|]; simpl.
  - rewrite <- app_assoc. reflexivity.
  - rewrite app_nil_r. reflexivity.
Qed.

Lemma healthy_run_sends_one_command_per_token_update_witness :
  let token := DecodeOk (checkin_event "mdm.TokenUpdate" "ABC") in
  let reqs := [token; DecodeOk (checkin_event "mdm.CheckOut" "ABC"); token] in
  fst (serve (mdm_env net_ok) reqs sample_state) = Returned tt /\
  served (mdm_env net_ok) reqs sample_state = reqs /\
  posts (snd (serve (mdm_env net_ok) reqs sample_state)) =
    [command_request sample_server "ABC" "InstalledApplicationList";
     command_request sample_server "ABC" "InstalledApplicationList"].
Proof.
  intros token reqs.
  apply (healthy_run_sends_one_command_per_token_update (mdm_env net_ok) reqs sample_state).
  - reflexivity.
  - intros n req. exists 200. reflexivity.
Defined.

(** ** Start-up *)

Lemma TrimRight_all_cut (s cutset : string) :
  forallb (in_cutset cutset) (list_ascii_of_string s) = true ->
  TrimRight s cutset = EmptyString.
Proof.
  induction s as [|c s IH]; simpl; [reflexivity|].
  rewrite andb_true_iff. intros [Hc Hs]. rewrite (IH Hs), Hc. reflexivity.
Qed.

Lemma append_last_inv (t : string) (c c0 c1 : ascii) (t1 : string) :
  String c (String c1 t1) = t +:+ String c0 EmptyString ->
  exists t2, t = String c t2 /\ String c1 t1 = t2 +:+ String c0 EmptyString.
Proof.
  destruct t as [|a t2]; simpl; intros H.
  - discriminate H.
  - injection H as -> H. exists t2. split; [reflexivity | exact H].
Qed.

(** [TrimRight] splits its argument into the result and a tail made of
    cutset bytes only, and the result does not end in a cutset byte: it
    removes all of the trailing run and nothing else. *)
Lemma TrimRight_spec (s cutset : string) :
  (exists rest,
     s = TrimRight s cutset +:+ rest /\
     forallb (in_cutset cutset) (list_ascii_of_string rest) = true) /\
  (forall t c, TrimRight s cutset = t +:+ String c EmptyString -> in_cutset cutset c = false).
Proof.
  induction s as [|c s [[rest [Hs Hrest]] Hlast]]; simpl.
  - split.
    + exists EmptyString. split; reflexivity.
    + intros [|a t] c H; discriminate H.
  - revert Hs Hlast. destruct (TrimRight s cutset) as [|c1 t1]; intros Hs Hlast.
    + change (s = rest) in Hs. subst rest.
      destruct (in_cutset cutset c) eqn:Hc.
      * split.
        -- exists (String c s). split; [reflexivity|]. simpl. rewrite Hc. exact Hrest.
        -- intros [|a t] c0 H; discriminate H.
      * split.
        -- exists s. split; [reflexivity | exact Hrest].
        -- intros [|a t] c0 H; simpl in H.
           ++ injection H as <-. exact Hc.
           ++ injection H as _ H. destruct t; discriminate H.
    + split.
      * exists rest. split; [|exact Hrest]. simpl. rewrite Hs at 1. reflexivity.
      * intros t c0 H. apply append_last_inv in H as (t2 & _ & H).
        exact (Hlast t2 c0 H).
Qed.

Lemma TrimRight_slashes (url : string) (n : nat) :
  TrimRight (url +:+ slashes n) "/" = TrimRight url "/".
Proof.
  induction url as [|c url IH]; simpl.
  - apply TrimRight_all_cut. induction n as [|n IHn]; simpl; [reflexivity | exact IHn].
  - rewrite IH. reflexivity.
Qed.

(** X15: [main] serves the same server whether or not the server URL is
    given with trailing slashes, as long as something is left of it. *)
Theorem main_ignores_trailing_slashes (url key : string) (n : nat) :
  url <> EmptyString ->
  main_server (url +:+ slashes n) key = main_server url key.
Proof.
  intros Hne. unfold main_server. rewrite TrimRight_slashes.
  destruct url as [|c url]; [contradiction|]. reflexivity.
Qed.

Lemma main_ignores_trailing_slashes_witness :
  main_server "https://mdm.example.com//" "secret" =
  Some (Server.mk "https://mdm.example.com" "secret" ∅).
Proof.
  change (main_server ("https://mdm.example.com" +:+ slashes 2) "secret" =
          main_server "https://mdm.example.com" "secret").
  apply (main_ignores_trailing_slashes "https://mdm.example.com" "secret" 2).
  discriminate.
Defined.

(** X16: a server URL made of slashes only passes [main]'s check for an
    empty flag and leaves the server with an empty base URL. *)
Theorem main_accepts_slashes_only (key : string) (n : nat) :
  0 < n ->
  key <> EmptyString ->
  main_server (slashes n) key = Some (Server.mk EmptyString key ∅).
Proof.
  intros Hn Hkey. unfold main_server.
  change (slashes n) with (EmptyString +:+ slashes n) at 2.
  rewrite TrimRight_slashes. simpl.
  destruct n as [|n]; [lia|]. destruct key as [|c key]; [contradiction|]. reflexivity.
Qed.

Lemma main_accepts_slashes_only_witness :
  main_server "/" "secret" = Some (Server.mk EmptyString "secret" ∅).
Proof.
  apply (main_accepts_slashes_only "secret" 1); [lia | discriminate].
Defined.

(** X17: [main] refuses to start exactly when the server URL or the API
    token is empty; when it starts, the registry is empty, the API key is
    the flag as given and the base URL does not end in a slash. *)
Theorem main_server_spec (url key : string) :
  (main_server url key = None <-> url = EmptyString \/ key = EmptyString) /\
  (forall s, main_server url key = Some s ->
     Server.Devices s = ∅ /\
     Server.MDMAPIKey s = key /\
     (exists n, url = Server.MDMServerURL s +:+ slashes n) /\
     forall t, Server.MDMServerURL s <> t +:+ "/").
Proof.
  unfold main_server. split.
  - destruct url as [|c url]; simpl.
    + split; [left; reflexivity | reflexivity].
    + destruct key as [|k key]; simpl.
      * split; [right; reflexivity | reflexivity].
      * split; [discriminate | intros [H|H]; discriminate H].
  - intros s.
    destruct (String.eqb url EmptyString || String.eqb key EmptyString); [discriminate|].
    intros H. injection H as <-. simpl.
    destruct (TrimRight_spec url "/") as [[rest [Hs Hrest]] Hlast].
    repeat split.
    + exists (String.length rest). rewrite Hs at 1. f_equal.
      clear Hs. induction rest as [|c rest IH]; simpl; [reflexivity|].
      simpl in Hrest. rewrite andb_true_iff, orb_false_r in Hrest.
      destruct Hrest as [Hc Hr]. apply Ascii.eqb_eq in Hc. subst c.
      rewrite <- (IH Hr). reflexivity.
    + intros t H. apply Hlast in H. discriminate H.
Qed.
